(** * A shallow embedding of the PNG decoder of img_manipulation

    The development follows [src/png.js] (the decoder), [assert.js] (the
    "fail loudly" helper) and the parts of the JavaScript semantics the
    decoder relies on: typed-array views, [slice], the 32-bit shift [<<],
    the remainder [%], strict equality and identifier resolution.

    Bytes are [Byte.byte]; JavaScript numbers that the decoder manipulates
    are integers of small magnitude and are modelled as [Z]; thrown values
    are the constructors of [exn]; the calls to the external decompression
    backend ([pako.inflate]) are recorded in a trace. *)

From Stdlib Require Import ZArith List Lia Bool String Ascii DecimalString.
From Stdlib Require Import Strings.Byte.
Import ListNotations.
Open Scope Z_scope.

(** ** Outcomes of a computation that may throw *)

(** The values the decoder hands to [assert]. *)
Inductive value :=
| VUndefined
| VNumber (z : Z)
| VBool (b : bool).

(** Everything the decoder can throw.  The decoder throws plain strings;
    the template strings carry their interpolated values as arguments. *)
Inductive exn :=
| Thrown (msg : string)
    (* throw '<string literal>' and assert(..).message('<literal>') *)
| ExpectedToBe (val expect : value)
    (* assert.js: `Expected ${val} to be ${expect}` *)
| ExpectedGreaterOrEqual (val : value) (expect : Z)
    (* assert.js: `Expected ${val} greater or equal to ${expect}` *)
| UnsupportedColorType (code : Z)
    (* png.js: `Unsupported Color type: ${code}` *)
| ReferenceError (identifier : string)
    (* reading an identifier that no scope binds *)
| RangeError
    (* typed-array constructor: offset/length outside the buffer *)
| InflateError.
    (* whatever pako.inflate threw; decodeIDAT rethrows it unchanged *)

Inductive result (A : Type) :=
| Ok (a : A)
| Throw (e : exn).
Arguments Ok {A} a.
Arguments Throw {A} e.

Definition bind {A B : Type} (r : result A) (k : A -> result B) : result B :=
  match r with
  | Ok a => k a
  | Throw e => Throw e
  end.

Declare Scope js_scope.
Delimit Scope js_scope with js.
Notation "x <- c ;; k" := (bind c (fun x => k))
  (at level 61, c at next level, right associativity) : js_scope.
Notation "c ;;; k" := (bind c (fun _ => k))
  (at level 61, right associativity) : js_scope.
Open Scope js_scope.

(** ** The JavaScript primitives used by the decoder *)
Module JS.

Definition byte_val (b : byte) : Z := Z.of_N (Byte.to_N b).

(** The byte with a given numeric value (used to write buffers down). *)
Definition u8 (n : Z) : byte :=
  match Byte.of_N (Z.to_N (n mod 256)) with
  | Some b => b
  | None => x00
  end.

Definition bytes (l : list Z) : list byte := map u8 l.

Definition array_length {A : Type} (l : list A) : Z := Z.of_nat (List.length l).

(** [a[i]]: [None] stands for [undefined] (index outside the array). *)
Definition index {A : Type} (l : list A) (i : Z) : option A :=
  if i <? 0 then None else nth_error l (Z.to_nat i).

Definition byte_at (l : list byte) (i : Z) : value :=
  match index l i with
  | Some b => VNumber (byte_val b)
  | None => VUndefined
  end.

(** ToInt32: wrap an integer into the signed 32-bit range. *)
Definition int32 (z : Z) : Z := (z + 2 ^ 31) mod 2 ^ 32 - 2 ^ 31.

(** [a << k]: both operands are converted, the shift count is taken
    modulo 32, and the result is a signed 32-bit integer. *)
Definition shl (a k : Z) : Z := int32 (Z.shiftl (int32 a) (k mod 32)).

(** [a % b] takes the sign of the dividend. *)
Definition rem (a b : Z) : Z := Z.rem a b.

(** [a === b] on the values of the model. *)
Definition strict_eq (a b : value) : bool :=
  match a, b with
  | VUndefined, VUndefined => true
  | VNumber x, VNumber y => x =? y
  | VBool x, VBool y => Bool.eqb x y
  | _, _ => false
  end.

(** [a == n] for a number [n]: [undefined == n] is false. *)
Definition loose_eq_number (a : value) (n : Z) : bool :=
  match a with
  | VNumber x => x =? n
  | VBool b => (if b then 1 else 0) =? n
  | VUndefined => false
  end.

(** ToNumber, [None] standing for NaN. *)
Definition to_number (a : value) : option Z :=
  match a with
  | VNumber x => Some x
  | VBool b => Some (if b then 1 else 0)
  | VUndefined => None
  end.

(** Relative index of [slice]: negative counts from the end, and the
    result is clamped to [0, len]. *)
Definition relative_index (len k : Z) : Z :=
  if k <? 0 then Z.max (len + k) 0 else Z.min k len.

(** [a.slice(start, end)] on a typed array. *)
Definition slice {A : Type} (l : list A) (start end_ : Z) : list A :=
  let len := array_length l in
  let s := relative_index len start in
  let e := relative_index len end_ in
  firstn (Z.to_nat (e - s)) (skipn (Z.to_nat s) l).

(** [new Uint8Array(buffer, byteOffset, length)]: a view, or a
    RangeError when the requested window does not fit the buffer. *)
Definition Uint8Array_view (buffer : list byte) (byteOffset len : Z)
  : result (list byte) :=
  if (byteOffset <? 0) || (len <? 0) || (array_length buffer <? byteOffset + len)
  then Throw RangeError
  else Ok (firstn (Z.to_nat len) (skipn (Z.to_nat byteOffset) buffer)).

(** Decimal rendering of a byte, as [String(n)] gives it. *)
Definition string_of_byte (b : byte) : string :=
  NilZero.string_of_uint (N.to_uint (Byte.to_N b)).

(** [Array.prototype.join] with the default separator. *)
Fixpoint join (parts : list string) : string :=
  match parts with
  | [] => EmptyString
  | [p] => p
  | p :: rest => (p ++ "," ++ join rest)%string
  end.

(** ToString of a Uint8Array: its elements joined by commas. *)
Definition string_of_Uint8Array (a : list byte) : string :=
  join (map string_of_byte a).

(** Resolution of an identifier against the names bound in the
    enclosing scopes; an unresolvable one raises a ReferenceError. *)
Definition resolve (bound : list string) (identifier : string) : result unit :=
  if existsb (String.eqb identifier) bound
  then Ok tt
  else Throw (ReferenceError identifier).

End JS.

(** ** assert.js *)
Module Assert.

Record t := { value_ : value; msg : option string }.

Definition assert (val : value) : t := {| value_ := val; msg := None |}.

Definition message (a : t) (m : string) : t :=
  {| value_ := value_ a; msg := Some m |}.

(** [if(this.msg)]: a missing or empty message is falsy. *)
Definition failure (a : t) (default : exn) : exn :=
  match msg a with
  | Some m => if String.eqb m EmptyString then default else Thrown m
  | None => default
  end.

Definition equal (a : t) (expect : value) : result unit :=
  if JS.strict_eq (value_ a) expect
  then Ok tt
  else Throw (failure a (ExpectedToBe (value_ a) expect)).

(** [greater] throws when [val < expect]; a NaN comparison is false. *)
Definition greater (a : t) (expect : Z) : result unit :=
  match JS.to_number (value_ a) with
  | Some v =>
      if v <? expect
      then Throw (failure a (ExpectedGreaterOrEqual (value_ a) expect))
      else Ok tt
  | None => Ok tt
  end.

End Assert.

(** ** png.js *)
Module Png.
Import JS.

(** *** The static tables *)

Record ChunkType := { chunk_name : string; chunk_code : list Z }.

Module CHUNK_TYPE.
Definition PLTE := {| chunk_name := "Palette"; chunk_code := [80; 76; 84; 69] |}.
Definition IHDR := {| chunk_name := "Header"; chunk_code := [73; 72; 68; 82] |}.
Definition IDAT := {| chunk_name := "Image Data"; chunk_code := [73; 68; 65; 84] |}.
Definition IEND := {| chunk_name := "Image Trailer"; chunk_code := [73; 69; 78; 68] |}.
End CHUNK_TYPE.

(** [type.code[k]]; every code of the table has four entries. *)
Definition code_at (t : ChunkType) (k : nat) : Z := nth k (chunk_code t) 0.

Record ColorType := {
  name : string;
  code : Z;
  channels : Z;
  allowed_bit_depths : list Z
}.

Module COLOR_TYPE.
Definition GRAYSCALE :=
  {| name := "Grayscale"; code := 0; channels := 1;
     allowed_bit_depths := [1; 2; 4; 8; 16] |}.
Definition RGB :=
  {| name := "RGB"; code := 2; channels := 3;
     allowed_bit_depths := [8; 16] |}.
Definition PALETTE :=
  {| name := "Palette"; code := 3; channels := 1;
     allowed_bit_depths := [1; 2; 4; 8] |}.
Definition ALPHA_GRAYSCALE :=
  {| name := "Grayscale with alpha channel"; code := 4; channels := 2;
     allowed_bit_depths := [8; 16] |}.
Definition ALPHA_RGB :=
  {| name := "Grayscale with alpha channel"; code := 6; channels := 4;
     allowed_bit_depths := [8; 16] |}.

(** The object literal, keys in insertion order. *)
Definition entries : list (string * ColorType) :=
  [ ("GRAYSCALE"%string, GRAYSCALE);
    ("RGB"%string, RGB);
    ("PALETTE"%string, PALETTE);
    ("ALPHA_GRAYSCALE"%string, ALPHA_GRAYSCALE);
    ("ALPHA_RGB"%string, ALPHA_RGB) ].
End COLOR_TYPE.

(** The decoded header object. *)
Module Header.
Record t := {
  width : Z;
  height : Z;
  depth : Z;
  colorType : ColorType;
  compression : Z;
  filter : Z;
  interlace : Z
}.
End Header.

(** *** number (png.js 288-295) *)

(** The loop body at index [i]: [result += bytes[i] << exp]. *)
Fixpoint number_loop (bytes_length : Z) (rest : list byte) (i : Z) (result : Z) : Z :=
  match rest with
  | [] => result
  | b :: rest' =>
      let exp := (bytes_length - (i + 1)) * 8 in
      number_loop bytes_length rest' (i + 1) (result + shl (byte_val b) exp)
  end.

Definition number (bytes : list byte) : Z :=
  number_loop (array_length bytes) bytes 0 0.

(** *** decodeColorType (png.js 253-257) *)

(** [Object.keys(COLOR_TYPE).find(x => COLOR_TYPE[x].code == code)]
    followed by [COLOR_TYPE[type]]: the search runs over the entries in
    key order and the entry found is the one returned. *)
Definition decodeColorType (c : Z) : result ColorType :=
  let type := find (fun kv => code (snd kv) =? c) COLOR_TYPE.entries in
  match type with
  | None => Throw (UnsupportedColorType c)
  | Some kv => Ok (snd kv)
  end.

(** *** getChunkIndex (png.js 266-281) *)

Definition type_matches (data : list byte) (type : ChunkType) (i : Z) : bool :=
  loose_eq_number (byte_at data i) (code_at type 0)
  && loose_eq_number (byte_at data (i + 1)) (code_at type 1)
  && loose_eq_number (byte_at data (i + 2)) (code_at type 2)
  && loose_eq_number (byte_at data (i + 3)) (code_at type 3).

(** The [for] loop over [i]; [fuel] bounds the number of iterations
    and is set to [data.length] by [getChunkIndex]. *)
Fixpoint getChunkIndex_loop (fuel : nat) (data : list byte) (type : ChunkType)
    (i : Z) (findings : list Z) : result (list Z) :=
  match fuel with
  | O => Ok findings
  | S fuel' =>
      if i <? array_length data then
        if type_matches data type i then
          Assert.greater
            (Assert.message (Assert.assert (VNumber (i - 4)))
               "Malformed chunk layout, found chunk type without length byte") 0 ;;;
          getChunkIndex_loop fuel' data type (i + 1) (findings ++ [i - 4])
        else getChunkIndex_loop fuel' data type (i + 1) findings
      else Ok findings
  end.

Definition getChunkIndex (buffer : list byte) (chunkType : ChunkType)
  : result (list Z) :=
  let data := buffer in
  getChunkIndex_loop (List.length data) data chunkType 0 [].

(** *** decodeIHDR (png.js 121-154) *)

(** The names bound where the assertion message of line 149 is
    evaluated: the locals of [decodeIHDR], then the module scope.  The
    global scope is taken to bind none of the names looked up. *)
Definition decodeIHDR_scope : list string :=
  [ "chunk"; "decode"; "length"; "colorCode"; "validDepth";
    "pako"; "assert"; "BitReadStream"; "CHUNK_TYPE"; "COLOR_TYPE" ]%string.

(** The template literal
    [`Invalid bit depth (${decode.depth})for colorType ${colorType.toString()}`],
    evaluated as an argument, before [message] and [equal] run. *)
Definition invalid_bit_depth_message (depth : Z) : result string :=
  resolve decodeIHDR_scope "colorType" ;;;
  Ok ("Invalid bit depth (" ++ NilZero.string_of_int (Z.to_int depth)
      ++ ")for colorType ")%string.

Definition expect_type (chunk : list byte) (type : ChunkType) (m : string)
  : result unit :=
  Assert.equal (Assert.message (Assert.assert (byte_at chunk 4)) m)
    (VNumber (code_at type 0)) ;;;
  Assert.equal (Assert.message (Assert.assert (byte_at chunk 5)) m)
    (VNumber (code_at type 1)) ;;;
  Assert.equal (Assert.message (Assert.assert (byte_at chunk 6)) m)
    (VNumber (code_at type 2)) ;;;
  Assert.equal (Assert.message (Assert.assert (byte_at chunk 7)) m)
    (VNumber (code_at type 3)).

Definition decodeIHDR (chunk : list byte) : result Header.t :=
  let len := number (slice chunk 0 4) in
  Assert.equal (Assert.assert (VNumber len)) (VNumber 13) ;;;
  expect_type chunk CHUNK_TYPE.IHDR "Expected IHDR header" ;;;
  let width := number (slice chunk 8 12) in
  let height := number (slice chunk 12 16) in
  let depth := number (slice chunk 16 17) in
  let colorCode := number (slice chunk 17 18) in
  colorType <- decodeColorType colorCode ;;
  let validDepth := existsb (Z.eqb depth) (allowed_bit_depths colorType) in
  m <- invalid_bit_depth_message depth ;;
  Assert.equal (Assert.message (Assert.assert (VBool validDepth)) m)
    (VBool true) ;;;
  let compression := number (slice chunk 18 19) in
  let filter := number (slice chunk 19 20) in
  let interlace := number (slice chunk 20 21) in
  Ok {| Header.width := width; Header.height := height;
        Header.depth := depth; Header.colorType := colorType;
        Header.compression := compression; Header.filter := filter;
        Header.interlace := interlace |}.

(** *** decodePLTE (png.js 161-184) *)

(** [for (let i = 0; i < data.length; i+=3) decode.push(data.slice(i,i+3))];
    [fuel] bounds the iterations and is set to [data.length]. *)
Fixpoint decodePLTE_loop (fuel : nat) (data : list byte) (i : Z)
    (decode : list (list byte)) : list (list byte) :=
  match fuel with
  | O => decode
  | S fuel' =>
      if i <? array_length data
      then decodePLTE_loop fuel' data (i + 3) (decode ++ [slice data i (i + 3)])
      else decode
  end.

Definition decodePLTE (chunk : list byte) : result (list (list byte)) :=
  let len := number (slice chunk 0 4) in
  Assert.equal
    (Assert.message (Assert.assert (VNumber (rem len 3)))
       "Malformed PLTE chunk, the length is not divisble by 3") (VNumber 0) ;;;
  expect_type chunk CHUNK_TYPE.PLTE "Expected PLTE header" ;;;
  let data := slice chunk 8 (array_length chunk) in
  Ok (decodePLTE_loop (List.length data) data 0 []).

(** *** decodeScanlines (png.js 224-234) *)

(** The body computes two locals and ends without a [return]: the call
    evaluates to [undefined], modelled by [None]. *)
Definition decodeScanlines (raw : string) (IHDR : Header.t)
  : option (list (list Z)) :=
  let packLength := channels (Header.colorType IHDR) * Header.depth IHDR in
  let length := Header.width IHDR * packLength in
  None.

(** *** The decompression backend and the trace of its calls *)

(** What a call of [pako.inflate] can do. *)
Inductive inflated :=
| Inflated (raw : list byte)
| ReturnsUndefined
| InflateThrows.

(** The payloads handed to the backend so far, oldest first. *)
Definition trace := list (list byte).

Definition M (A : Type) : Type := trace -> result A * trace.

Definition ret {A : Type} (a : A) : M A := fun tr => (Ok a, tr).
Definition throw {A : Type} (e : exn) : M A := fun tr => (Throw e, tr).
Definition lift {A : Type} (r : result A) : M A := fun tr => (r, tr).
Definition bindM {A B : Type} (m : M A) (k : A -> M B) : M B :=
  fun tr =>
    match m tr with
    | (Ok a, tr') => k a tr'
    | (Throw e, tr') => (Throw e, tr')
    end.

Notation "x <~ c ;; k" := (bindM c (fun x => k))
  (at level 61, c at next level, right associativity).
Notation "c >>> k" := (bindM c (fun _ => k))
  (at level 61, right associativity).

(** The decoded image object. *)
Record Img := {
  IHDR : Header.t;
  PLTE : option (list (list byte));
  rawData : string;
  referenceImage : option (list (list Z))
}.

Section Backend.

Variable inflate : list byte -> inflated.

Definition pako_inflate (payload : list byte) : M (option (list byte)) :=
  fun tr =>
    match inflate payload with
    | Inflated raw => (Ok (Some raw), tr ++ [payload])
    | ReturnsUndefined => (Ok None, tr ++ [payload])
    | InflateThrows => (Throw InflateError, tr ++ [payload])
    end.

(** *** decodeIDAT (png.js 191-216) *)
Definition decodeIDAT (chunk : list byte) : M (list byte) :=
  let len := number (slice chunk 0 4) in
  lift (expect_type chunk CHUNK_TYPE.IDAT "Expected IDAT header") >>>
  let payload := slice chunk 8 (len + 8) in
  decode <~ pako_inflate payload ;;
  match decode with
  | None => throw (Thrown "Could not inflate IDAT payload")
  | Some raw => ret raw
  end.

(** *** decode (png.js 75-115) *)

(** Lines 79-86. *)
Definition check_signature (header : list byte) : result unit :=
  Assert.equal (Assert.assert (byte_at header 0)) (VNumber 0x89) ;;;
  Assert.equal (Assert.assert (byte_at header 1)) (VNumber 0x50) ;;;
  Assert.equal (Assert.assert (byte_at header 2)) (VNumber 0x4e) ;;;
  Assert.equal (Assert.assert (byte_at header 3)) (VNumber 0x47) ;;;
  Assert.equal (Assert.assert (byte_at header 4)) (VNumber 0x0d) ;;;
  Assert.equal (Assert.assert (byte_at header 5)) (VNumber 0x0a) ;;;
  Assert.equal (Assert.assert (byte_at header 6)) (VNumber 0x1a) ;;;
  Assert.equal (Assert.assert (byte_at header 7)) (VNumber 0x0a).

(** Lines 92-98, the block under the comment "PLTE". *)
Definition decode_PLTE (buffer : list byte)
  : result (option (list (list byte))) :=
  plteIndices <- getChunkIndex buffer CHUNK_TYPE.PLTE ;;
  if 1 <? array_length plteIndices
  then Throw (Thrown "Found multiple PLTE chunks, which is not supported")
  else
    match plteIndices with
    | p0 :: _ =>
        lengthBytes <- Uint8Array_view buffer p0 4 ;;
        let plteLength := number lengthBytes in
        chunk <- Uint8Array_view buffer p0 (plteLength + 8) ;;
        palette <- decodePLTE chunk ;;
        Ok (Some palette)
    | [] => Ok None
    end.

(** Lines 105-108: the arrow function given to [forEach]; the value
    it computes is the one pushed onto [img.rawData]. *)
Definition IDAT_callback (buffer : list byte) (x : Z) : M (list byte) :=
  lengthBytes <~ lift (Uint8Array_view buffer x 4) ;;
  let len := number lengthBytes in
  chunk <~ lift (Uint8Array_view buffer x (len + 8)) ;;
  decodeIDAT chunk.

(** The [forEach] over the indices found. *)
Fixpoint forEach_IDAT (buffer : list byte) (dataIndices : list Z)
    (rawData : list (list byte)) : M (list (list byte)) :=
  match dataIndices with
  | [] => ret rawData
  | x :: rest =>
      raw <~ IDAT_callback buffer x ;;
      forEach_IDAT buffer rest (rawData ++ [raw])
  end.

(** Lines 100-110, the block under the comment "IDAT". *)
Definition decode_IDAT (buffer : list byte) : M string :=
  dataIndices <~ lift (getChunkIndex buffer CHUNK_TYPE.IDAT) ;;
  if array_length dataIndices =? 0
  then throw (Thrown "No IDAT chunk found")
  else
    rawData <~ forEach_IDAT buffer dataIndices [] ;;
    ret (join (map string_of_Uint8Array rawData)).

Definition decode (buffer : list byte) : M Img :=
  header <~ lift (Uint8Array_view buffer 0 8) ;;
  lift (check_signature header) >>>
  chunk <~ lift (Uint8Array_view buffer 8 21) ;;
  IHDR <~ lift (decodeIHDR chunk) ;;
  PLTE <~ lift (decode_PLTE buffer) ;;
  rawData <~ decode_IDAT buffer ;;
  let referenceImage := decodeScanlines rawData IHDR in
  ret {| IHDR := IHDR; PLTE := PLTE; rawData := rawData;
         referenceImage := referenceImage |}.

End Backend.

End Png.

(** ** Chunk boundaries as the specification describes them

    The specification (section 4.1) asks for a cursor that starts after
    the signature and repeatedly reads a 4-byte big-endian length, a
    4-byte type code, [length] bytes of payload and a 4-byte CRC, stopping
    at the end of the buffer or at IEND.  [SpecChunks.walk] follows those
    words; it is not part of the program and serves only as the yardstick
    the scan of [Png.getChunkIndex] is compared with. *)
Module SpecChunks.
Import JS.

(** Big-endian unsigned value of a byte sequence. *)
Definition be_unsigned (bs : list byte) : Z :=
  fold_left (fun acc b => acc * 256 + byte_val b) bs 0.

Definition window (buffer : list byte) (off len : Z) : list byte :=
  firstn (Z.to_nat len) (skipn (Z.to_nat off) buffer).

(** Offsets and type codes of the chunks met by the cursor. *)
Fixpoint walk (fuel : nat) (buffer : list byte) (cursor : Z)
  : list (Z * list Z) :=
  match fuel with
  | O => []
  | S fuel' =>
      if array_length buffer <? cursor + 12 then []
      else
        let len := be_unsigned (window buffer cursor 4) in
        let type := map byte_val (window buffer (cursor + 4) 4) in
        if array_length buffer <? cursor + 12 + len then []
        else if list_eq_dec Z.eq_dec type (Png.chunk_code Png.CHUNK_TYPE.IEND)
             then [(cursor, type)]
             else (cursor, type) :: walk fuel' buffer (cursor + 12 + len)
  end.

Definition chunks (buffer : list byte) : list (Z * list Z) :=
  walk (List.length buffer) buffer 8.

(** Offsets of the chunks of a given type. *)
Definition offsets_of (buffer : list byte) (type : Png.ChunkType) : list Z :=
  map fst
    (List.filter
       (fun c => if list_eq_dec Z.eq_dec (snd c) (Png.chunk_code type)
                 then true else false)
       (chunks buffer)).

End SpecChunks.

(** ** Concrete streams *)
Module Examples.
Import JS Png.

(** A stand-in for the decompression backend, defined only on zlib
    streams made of a single stored (uncompressed) block; anything else
    is reported as a backend failure.  It is used to run the decoder on
    the concrete streams below. *)
Definition stored_inflate (payload : list byte) : inflated :=
  match map byte_val payload with
  | 120 :: _ :: 1 :: l0 :: l1 :: n0 :: n1 :: rest =>
      let len := l0 + 256 * l1 in
      if (n0 + 256 * n1 =? 65535 - len) && (array_length rest =? len + 4)
      then Inflated (firstn (Z.to_nat len) (skipn 7 payload))
      else InflateThrows
  | _ => InflateThrows
  end.

Definition signature : list Z := [137; 80; 78; 71; 13; 10; 26; 10].
Definition IEND_chunk : list Z := [0; 0; 0; 0; 73; 69; 78; 68; 174; 66; 96; 130].

(** The end-to-end scenario of the specification: 2x2, Grayscale, bit
    depth 8, not interlaced, both scanlines with filter type None, raw
    samples 0, 255, 128, 64 (one IDAT holding a stored zlib block). *)
Definition gray2x2 : list byte :=
  bytes (signature
    ++ [0; 0; 0; 13; 73; 72; 68; 82; 0; 0; 0; 2; 0; 0; 0; 2; 8; 0; 0; 0; 0;
        87; 221; 82; 248]
    ++ [0; 0; 0; 17; 73; 68; 65; 84;
        120; 1; 1; 6; 0; 249; 255; 0; 0; 255; 0; 128; 64; 5; 66; 1; 192;
        121; 233; 9; 196]
    ++ IEND_chunk).

(** The same image with colour type code 1, which the table lacks. *)
Definition colour1 : list byte :=
  bytes (signature
    ++ [0; 0; 0; 13; 73; 72; 68; 82; 0; 0; 0; 2; 0; 0; 0; 2; 8; 1; 0; 0; 0;
        239; 97; 53; 157]
    ++ [0; 0; 0; 17; 73; 68; 65; 84;
        120; 1; 1; 6; 0; 249; 255; 0; 0; 255; 0; 128; 64; 5; 66; 1; 192;
        121; 233; 9; 196]
    ++ IEND_chunk).

(** The same image with compression method 1 and interlace method 7. *)
Definition compression1_interlace7 : list byte :=
  bytes (signature
    ++ [0; 0; 0; 13; 73; 72; 68; 82; 0; 0; 0; 2; 0; 0; 0; 2; 8; 0; 1; 0; 7;
        200; 123; 173; 108]
    ++ [0; 0; 0; 17; 73; 68; 65; 84;
        120; 1; 1; 6; 0; 249; 255; 0; 0; 255; 0; 128; 64; 5; 66; 1; 192;
        121; 233; 9; 196]
    ++ IEND_chunk).

(** A 4x1 Grayscale image whose four samples are 80, 76, 84, 69: the
    stored IDAT payload contains the bytes of the type code PLTE. *)
Definition samples_PLTE : list byte :=
  bytes (signature
    ++ [0; 0; 0; 13; 73; 72; 68; 82; 0; 0; 0; 4; 0; 0; 0; 1; 8; 0; 0; 0; 0;
        220; 87; 80; 17]
    ++ [0; 0; 0; 16; 73; 68; 65; 84;
        120; 1; 1; 5; 0; 250; 255; 0; 80; 76; 84; 69; 3; 22; 1; 54;
        24; 138; 194; 162]
    ++ IEND_chunk).

(** The same stream with the last sample 70 instead of 69: only bytes
    of the IDAT payload and of its CRC differ. *)
Definition samples_PLTF : list byte :=
  bytes (signature
    ++ [0; 0; 0; 13; 73; 72; 68; 82; 0; 0; 0; 4; 0; 0; 0; 1; 8; 0; 0; 0; 0;
        220; 87; 80; 17]
    ++ [0; 0; 0; 16; 73; 68; 65; 84;
        120; 1; 1; 5; 0; 250; 255; 0; 80; 76; 84; 70; 3; 23; 1; 55;
        41; 239; 226; 211]
    ++ IEND_chunk).

Definition first_IDAT_payload : list byte :=
  bytes [120; 1; 1; 3; 0; 252; 255; 0; 0; 255; 1; 2; 1; 0].
Definition second_IDAT_payload : list byte :=
  bytes [120; 1; 1; 3; 0; 252; 255; 0; 128; 64; 1; 67; 0; 193].

(** The 2x2 image with one IDAT chunk per scanline. *)
Definition two_IDAT : list byte :=
  bytes (signature
    ++ [0; 0; 0; 13; 73; 72; 68; 82; 0; 0; 0; 2; 0; 0; 0; 2; 8; 0; 0; 0; 0;
        87; 221; 82; 248]
    ++ [0; 0; 0; 14; 73; 68; 65; 84;
        120; 1; 1; 3; 0; 252; 255; 0; 0; 255; 1; 2; 1; 0;
        183; 1; 46; 247]
    ++ [0; 0; 0; 14; 73; 68; 65; 84;
        120; 1; 1; 3; 0; 252; 255; 0; 128; 64; 1; 67; 0; 193;
        191; 6; 129; 122]
    ++ IEND_chunk).

(** A 1x1 Palette image whose PLTE chunk comes after its IDAT chunk. *)
Definition PLTE_after_IDAT : list byte :=
  bytes (signature
    ++ [0; 0; 0; 13; 73; 72; 68; 82; 0; 0; 0; 1; 0; 0; 0; 1; 8; 3; 0; 0; 0;
        40; 203; 52; 187]
    ++ [0; 0; 0; 13; 73; 68; 65; 84;
        120; 1; 1; 2; 0; 253; 255; 0; 0; 0; 2; 0; 1;
        126; 5; 13; 210]
    ++ [0; 0; 0; 3; 80; 76; 84; 69; 255; 0; 0; 25; 226; 9; 55]
    ++ IEND_chunk).

(** A Palette stream with two PLTE chunks before its IDAT chunk. *)
Definition two_PLTE : list byte :=
  bytes (signature
    ++ [0; 0; 0; 13; 73; 72; 68; 82; 0; 0; 0; 1; 0; 0; 0; 1; 8; 3; 0; 0; 0;
        40; 203; 52; 187]
    ++ [0; 0; 0; 3; 80; 76; 84; 69; 255; 0; 0; 25; 226; 9; 55]
    ++ [0; 0; 0; 3; 80; 76; 84; 69; 255; 0; 0; 25; 226; 9; 55]
    ++ [0; 0; 0; 13; 73; 68; 65; 84;
        120; 1; 1; 2; 0; 253; 255; 0; 0; 0; 2; 0; 1;
        126; 5; 13; 210]
    ++ IEND_chunk).

(** A stream without any IDAT chunk. *)
Definition no_IDAT : list byte :=
  bytes (signature
    ++ [0; 0; 0; 13; 73; 72; 68; 82; 0; 0; 0; 2; 0; 0; 0; 2; 8; 0; 0; 0; 0;
        87; 221; 82; 248]
    ++ IEND_chunk).

(** A stream whose first chunk is a 13-byte IDAT chunk, the IHDR chunk
    coming second. *)
Definition IDAT_first : list byte :=
  bytes (signature
    ++ [0; 0; 0; 13; 73; 68; 65; 84;
        120; 1; 1; 2; 0; 253; 255; 0; 0; 0; 2; 0; 1;
        126; 5; 13; 210]
    ++ [0; 0; 0; 13; 73; 72; 68; 82; 0; 0; 0; 1; 0; 0; 0; 1; 8; 0; 0; 0; 0;
        58; 126; 155; 85]
    ++ IEND_chunk).

(** The scenario stream with its first byte 0x88 instead of 0x89. *)
Definition wrong_magic : list byte := u8 0x88 :: skipn 1 gray2x2.

(** A PLTE chunk whose length is not a multiple of 3 (length and type
    code followed by the payload, no CRC: the part of the chunk that
    [decode] hands to [decodePLTE]). *)
Definition four_byte_PLTE : list byte :=
  bytes [0; 0; 0; 4; 80; 76; 84; 69; 1; 2; 3; 4].

End Examples.

(** * Properties *)

Import JS Png.

Arguments byte_val : simpl never.

(** ** Facts about the primitives *)

Lemma byte_val_range (b : byte) : 0 <= byte_val b < 256.
Proof.
  unfold byte_val.
  pose proof (Byte.to_N_bounded b) as H.
  split; [apply N2Z.is_nonneg | ].
  apply N2Z.inj_le in H. simpl in H. lia.
Qed.

Lemma int32_small (z : Z) : - 2 ^ 31 <= z < 2 ^ 31 -> int32 z = z.
Proof.
  intros H. unfold int32. rewrite Z.mod_small; lia.
Qed.

Lemma int32_high (z : Z) : 2 ^ 31 <= z < 2 ^ 32 -> int32 z = z - 2 ^ 32.
Proof.
  intros H. unfold int32.
  replace (z + 2 ^ 31) with (z - 2 ^ 31 + 1 * 2 ^ 32) by lia.
  rewrite Z.mod_add by lia. rewrite Z.mod_small; lia.
Qed.

Lemma shl_byte (b : byte) (k : Z) :
  0 <= k < 32 -> shl (byte_val b) k = int32 (byte_val b * 2 ^ k).
Proof.
  intros Hk. unfold shl.
  pose proof (byte_val_range b) as Hb.
  rewrite (int32_small (byte_val b)) by lia.
  rewrite Z.mod_small by lia.
  now rewrite Z.shiftl_mul_pow2 by lia.
Qed.

Lemma shl_byte_low (b : byte) (k : Z) :
  0 <= k <= 16 -> shl (byte_val b) k = byte_val b * 2 ^ k.
Proof.
  intros Hk. rewrite shl_byte by lia.
  pose proof (byte_val_range b) as Hb.
  assert (0 < 2 ^ k <= 2 ^ 16) by (split; [ lia | apply Z.pow_le_mono_r; lia ]).
  apply int32_small. nia.
Qed.

Lemma number_one_byte (b : byte) : number [b] = byte_val b.
Proof.
  unfold number. cbn. rewrite (shl_byte_low b 0) by lia.
  change (2 ^ 0) with 1. lia.
Qed.

Lemma number_four_bytes (b0 b1 b2 b3 : byte) :
  number [b0; b1; b2; b3]
  = int32 (byte_val b0 * 2 ^ 24)
    + byte_val b1 * 2 ^ 16 + byte_val b2 * 2 ^ 8 + byte_val b3.
Proof.
  unfold number. cbn.
  rewrite (shl_byte b0 24) by lia.
  rewrite (shl_byte_low b1 16), (shl_byte_low b2 8), (shl_byte_low b3 0) by lia.
  change (2 ^ 24) with 16777216. change (2 ^ 16) with 65536.
  change (2 ^ 8) with 256. change (2 ^ 0) with 1. lia.
Qed.

(** ** number *)

(** C8.  On four bytes [number] adds the four shifted bytes, but the
    shift [<<] yields a signed 32-bit integer: when the first byte is
    below 128 the result is the big-endian unsigned value
    [b0*2^24 + b1*2^16 + b2*2^8 + b3]; from 128 on it is that value minus
    [2^32], a negative number.  At the bytes 128, 0, 0, 0 the result is
    -2147483648 instead of 2147483648. *)
Theorem number_four_bytes_signed (b0 b1 b2 b3 : byte) :
  number [b0; b1; b2; b3]
  = (if byte_val b0 <? 128
     then byte_val b0 * 2 ^ 24 + byte_val b1 * 2 ^ 16 + byte_val b2 * 2 ^ 8 + byte_val b3
     else byte_val b0 * 2 ^ 24 + byte_val b1 * 2 ^ 16 + byte_val b2 * 2 ^ 8 + byte_val b3
          - 2 ^ 32)
  /\ number (bytes [128; 0; 0; 0]) = -2147483648.
Proof.
  split; [ | reflexivity ].
  rewrite number_four_bytes.
  pose proof (byte_val_range b0) as H0.
  destruct (byte_val b0 <? 128) eqn:Hlt.
  - apply Z.ltb_lt in Hlt. rewrite int32_small by lia. reflexivity.
  - apply Z.ltb_ge in Hlt. rewrite int32_high by lia. lia.
Qed.

(** Below [2^31] the value is the unsigned big-endian one, in the range
    that chunk lengths and image dimensions may take in a PNG stream. *)
Lemma number_four_bytes_unsigned (b0 b1 b2 b3 : byte) :
  byte_val b0 < 128 ->
  number [b0; b1; b2; b3]
  = byte_val b0 * 2 ^ 24 + byte_val b1 * 2 ^ 16 + byte_val b2 * 2 ^ 8 + byte_val b3
  /\ 0 <= number [b0; b1; b2; b3] < 2 ^ 31.
Proof.
  intros H. rewrite number_four_bytes.
  pose proof (byte_val_range b0). pose proof (byte_val_range b1).
  pose proof (byte_val_range b2). pose proof (byte_val_range b3).
  rewrite int32_small by lia. lia.
Qed.

Lemma slice_app_prefix {A : Type} (pre post : list A) (a b : Z) :
  0 <= a -> 0 <= b <= array_length pre ->
  slice (pre ++ post) a b = slice pre a b.
Proof.
  unfold slice, array_length, relative_index. intros Ha Hb.
  rewrite length_app.
  replace (a <? 0) with false by (symmetry; apply Z.ltb_ge; lia).
  replace (b <? 0) with false by (symmetry; apply Z.ltb_ge; lia).
  rewrite (Z.min_l b) by lia. rewrite (Z.min_l b) by lia.
  destruct (Z.le_gt_cases a (Z.of_nat (List.length pre))) as [Hle | Hgt].
  - rewrite (Z.min_l a) by lia. rewrite (Z.min_l a) by lia.
    rewrite skipn_app, firstn_app.
    replace (Z.to_nat a - List.length pre)%nat with 0%nat by lia.
    rewrite length_skipn.
    replace (Z.to_nat (b - a) - (List.length pre - Z.to_nat a))%nat with 0%nat by lia.
    cbn [skipn firstn]. now rewrite app_nil_r.
  - replace (Z.to_nat (b - Z.min a (Z.of_nat (List.length pre + List.length post))))
      with 0%nat by lia.
    replace (Z.to_nat (b - Z.min a (Z.of_nat (List.length pre))))
      with 0%nat by lia.
    reflexivity.
Qed.

Lemma byte_at_app_prefix (pre post : list byte) (i : Z) :
  i < array_length pre -> byte_at (pre ++ post) i = byte_at pre i.
Proof.
  unfold byte_at, index, array_length. intros Hi.
  destruct (i <? 0) eqn:Hneg; [reflexivity | ].
  apply Z.ltb_ge in Hneg.
  rewrite nth_error_app1 by lia. reflexivity.
Qed.

(** ** decodeColorType and decodeIHDR *)

Lemma invalid_bit_depth_message_throws (depth : Z) :
  invalid_bit_depth_message depth = Throw (ReferenceError "colorType").
Proof. reflexivity. Qed.

(** What [decodeIHDR] amounts to: the three guards, then the failing
    evaluation of the assertion message. *)
Lemma decodeIHDR_guards (chunk : list byte) :
  decodeIHDR chunk
  = (Assert.equal (Assert.assert (VNumber (number (slice chunk 0 4)))) (VNumber 13) ;;;
     expect_type chunk CHUNK_TYPE.IHDR "Expected IHDR header" ;;;
     _ <- decodeColorType (number (slice chunk 17 18)) ;;
     Throw (ReferenceError "colorType")).
Proof.
  unfold decodeIHDR.
  destruct (Assert.equal _ _); [ | reflexivity ]. cbn [bind].
  destruct (expect_type _ _ _); [ | reflexivity ]. cbn [bind].
  destruct (decodeColorType _); reflexivity.
Qed.

Lemma decodeIHDR_never_returns (chunk : list byte) (h : Header.t) :
  decodeIHDR chunk <> Ok h.
Proof.
  rewrite decodeIHDR_guards.
  destruct (Assert.equal _ _); [ | discriminate ]. cbn [bind].
  destruct (expect_type _ _ _); [ | discriminate ]. cbn [bind].
  destruct (decodeColorType _); discriminate.
Qed.

Lemma decode_never_returns (inflate : list byte -> inflated)
    (buffer : list byte) (tr tr' : trace) (img : Img) :
  decode inflate buffer tr <> (Ok img, tr').
Proof.
  unfold decode, bindM, lift.
  destruct (Uint8Array_view buffer 0 8); [ | discriminate ].
  destruct (check_signature _); [ | discriminate ].
  destruct (Uint8Array_view buffer 8 21) as [chunk | ]; [ | discriminate ].
  destruct (decodeIHDR chunk) as [h | ] eqn:E; [ | discriminate ].
  now apply decodeIHDR_never_returns in E.
Qed.

(** C10.  [decodeColorType] returns the descriptor of the table for the
    codes 0 (Grayscale), 2 (RGB), 3 (Palette), 4 (Grayscale with alpha) and
    6 (RGB with alpha), and throws `Unsupported Color type: <code>` for
    every other code; a header chunk that passes the length and type
    guards and carries such a code makes [decodeIHDR] throw the same. *)
Theorem decodeColorType_table (c : Z) (chunk : list byte) :
  decodeColorType c
  = match c with
    | 0 => Ok COLOR_TYPE.GRAYSCALE
    | 2 => Ok COLOR_TYPE.RGB
    | 3 => Ok COLOR_TYPE.PALETTE
    | 4 => Ok COLOR_TYPE.ALPHA_GRAYSCALE
    | 6 => Ok COLOR_TYPE.ALPHA_RGB
    | _ => Throw (UnsupportedColorType c)
    end
  /\ (number (slice chunk 0 4) = 13 ->
      expect_type chunk CHUNK_TYPE.IHDR "Expected IHDR header" = Ok tt ->
      number (slice chunk 17 18) = c ->
      ~ In c [0; 2; 3; 4; 6] ->
      decodeIHDR chunk = Throw (UnsupportedColorType c)).
Proof.
  assert (Htable : decodeColorType c
                   = match c with
                     | 0 => Ok COLOR_TYPE.GRAYSCALE
                     | 2 => Ok COLOR_TYPE.RGB
                     | 3 => Ok COLOR_TYPE.PALETTE
                     | 4 => Ok COLOR_TYPE.ALPHA_GRAYSCALE
                     | 6 => Ok COLOR_TYPE.ALPHA_RGB
                     | _ => Throw (UnsupportedColorType c)
                     end).
  { unfold decodeColorType. cbn [find COLOR_TYPE.entries snd code
      COLOR_TYPE.GRAYSCALE COLOR_TYPE.RGB COLOR_TYPE.PALETTE
      COLOR_TYPE.ALPHA_GRAYSCALE COLOR_TYPE.ALPHA_RGB].
    destruct (0 =? c) eqn:E0; [ apply Z.eqb_eq in E0; now subst | ].
    destruct (2 =? c) eqn:E2; [ apply Z.eqb_eq in E2; now subst | ].
    destruct (3 =? c) eqn:E3; [ apply Z.eqb_eq in E3; now subst | ].
    destruct (4 =? c) eqn:E4; [ apply Z.eqb_eq in E4; now subst | ].
    destruct (6 =? c) eqn:E6; [ apply Z.eqb_eq in E6; now subst | ].
    apply Z.eqb_neq in E0, E2, E3, E4, E6.
    destruct c as [ | p | p ]; try reflexivity; try congruence.
    do 3 (destruct p as [ p | p | ]; try reflexivity; try congruence). }
  split; [ exact Htable | ].
  intros Hlen Htype Hc Hnot.
  rewrite decodeIHDR_guards, Hlen, Htype, Hc, Htable. cbn in Hnot |- *.
  destruct c as [ | p | p ]; try reflexivity; try (exfalso; tauto).
  do 3 (destruct p as [ p | p | ]; try reflexivity; try (exfalso; tauto)).
Qed.

(** An instance of C10: code 1, in the header of [Examples.colour1]. *)
Lemma decodeColorType_table_witness :
  decodeColorType 1 = Throw (UnsupportedColorType 1)
  /\ decodeIHDR (firstn 21 (skipn 8 Examples.colour1))
     = Throw (UnsupportedColorType 1).
Proof.
  pose proof (decodeColorType_table 1 (firstn 21 (skipn 8 Examples.colour1)))
    as [Htable Hheader].
  split.
  - exact Htable.
  - apply Hheader; try reflexivity.
    cbn. intros H. repeat (destruct H as [H | H]; [ discriminate H | ]). exact H.
Defined.

(** C4 does not hold as stated: [Examples.colour1] passes the signature
    check and the IHDR type check, yet [decodeIHDR] stops at
    [decodeColorType] with `Unsupported Color type: 1`; the assertion
    message is not evaluated and no ReferenceError is raised. *)
Lemma colour1_no_ReferenceError :
  ~ (forall buffer header chunk,
       Uint8Array_view buffer 0 8 = Ok header ->
       check_signature header = Ok tt ->
       Uint8Array_view buffer 8 21 = Ok chunk ->
       expect_type chunk CHUNK_TYPE.IHDR "Expected IHDR header" = Ok tt ->
       decodeIHDR chunk = Throw (ReferenceError "colorType")).
Proof.
  intros H.
  specialize (H Examples.colour1 _ _ eq_refl eq_refl eq_refl eq_refl).
  vm_compute in H. discriminate H.
Qed.

(** The failure of [decodeIHDR] is decided by the first 18 bytes of the
    chunk (length, type, width, height, bit depth, colour type). *)
Lemma decodeIHDR_prefix (pre t : list byte) :
  List.length pre = 18%nat ->
  decodeIHDR (pre ++ t) = decodeIHDR (pre ++ []).
Proof.
  intros Hlen. rewrite !decodeIHDR_guards. unfold expect_type.
  assert (Hl : array_length pre = 18) by (unfold array_length; lia).
  rewrite !(slice_app_prefix pre) by lia.
  rewrite !(byte_at_app_prefix pre) by lia.
  reflexivity.
Qed.

(** C5 does not hold as stated: the header of
    [Examples.compression1_interlace7] has compression method 1 and
    interlace method 7 and a legal bit depth; [decodeIHDR] fails on it
    exactly as on the header with methods 0 and 0, with the ReferenceError
    and not with a failure about the compression or interlace method. *)
Lemma compression1_interlace7_not_validated :
  let bad := firstn 21 (skipn 8 Examples.compression1_interlace7) in
  let good := firstn 21 (skipn 8 Examples.gray2x2) in
  number (slice bad 18 19) = 1
  /\ number (slice bad 20 21) = 7
  /\ number (slice good 18 19) = 0
  /\ number (slice good 20 21) = 0
  /\ decodeIHDR bad = Throw (ReferenceError "colorType")
  /\ decodeIHDR bad = decodeIHDR good.
Proof.
  vm_compute. repeat split; reflexivity.
Qed.

(** ** The end-to-end scenario *)

(** C1.  On the stream of the end-to-end scenario [decode] returns no
    raster: it throws the ReferenceError raised in [decodeIHDR], before
    the backend is called.  The IDAT block alone does reach the six
    unfiltered bytes (as the text "0,0,255,0,128,64"), but
    [decodeScanlines] has no [return] and evaluates to [undefined] for
    every argument, so no samples [[0,255],[128,64]] are produced. *)
Theorem decode_gray2x2_no_raster (inflate : list byte -> inflated)
    (raw : string) (h : Header.t) :
  decode inflate Examples.gray2x2 [] = (Throw (ReferenceError "colorType"), [])
  /\ fst (decode_IDAT Examples.stored_inflate Examples.gray2x2 [])
     = Ok "0,0,255,0,128,64"%string
  /\ decodeScanlines raw h = None.
Proof.
  split; [ | split ]; [ vm_compute; reflexivity | vm_compute; reflexivity | reflexivity ].
Qed.

(** ** getChunkIndex *)

(** The scan reports an index exactly for the positions where the four
    bytes of the type code occur, wherever they are in the buffer. *)
Lemma getChunkIndex_loop_finds (fuel : nat) (data : list byte) (type : ChunkType) :
  forall (i : Z) (findings l : list Z),
    0 <= i ->
    i + Z.of_nat fuel = array_length data ->
    getChunkIndex_loop fuel data type i findings = Ok l ->
    forall x, In x l <->
              In x findings
              \/ (i <= x + 4 < array_length data
                  /\ type_matches data type (x + 4) = true).
Proof.
  induction fuel as [ | fuel IH ]; intros i findings l Hi Hfuel Hrun x.
  - cbn in Hrun. injection Hrun as <-. split; [ tauto | ].
    intros [H | H]; [ exact H | lia ].
  - cbn [getChunkIndex_loop] in Hrun.
    replace (i <? array_length data) with true in Hrun
      by (symmetry; apply Z.ltb_lt; lia).
    destruct (type_matches data type i) eqn:Hm.
    + destruct (Assert.greater _ 0); [ | discriminate Hrun ].
      cbn [bind] in Hrun.
      rewrite (IH (i + 1) (findings ++ [i - 4]) l) by (assumption || lia).
      rewrite in_app_iff. cbn [In]. split.
      * intros [[H | [H | []]] | H]; [ tauto | right | right ].
        -- subst x. replace (i - 4 + 4) with i by lia. split; [ lia | exact Hm ].
        -- split; [ lia | tauto ].
      * intros [H | [Hr Hx]]; [ tauto | ].
        destruct (Z.eq_dec (x + 4) i) as [E | E].
        -- left. right. left. lia.
        -- right. split; [ lia | exact Hx ].
    + rewrite (IH (i + 1) findings l) by (assumption || lia).
      split.
      * intros [H | [Hr Hx]]; [ tauto | right; split; [ lia | exact Hx ] ].
      * intros [H | [Hr Hx]]; [ tauto | ].
        destruct (Z.eq_dec (x + 4) i) as [E | E].
        -- rewrite E in Hx. congruence.
        -- right. split; [ lia | exact Hx ].
Qed.

Lemma getChunkIndex_finds (buffer : list byte) (type : ChunkType) (l : list Z) :
  getChunkIndex buffer type = Ok l ->
  forall x, In x l <->
            (0 <= x + 4 < array_length buffer
             /\ type_matches buffer type (x + 4) = true).
Proof.
  intros Hrun x. unfold getChunkIndex in Hrun.
  pose proof (getChunkIndex_loop_finds (List.length buffer) buffer type 0 [] l
                (Z.le_refl 0) eq_refl Hrun x) as H.
  cbn [In] in H. tauto.
Qed.

(** C2.  [getChunkIndex] searches the whole buffer for the four bytes of
    the type code.  [Examples.samples_PLTE] has the chunks IHDR (offset 8),
    IDAT (offset 33, payload at 41..56) and IEND (offset 61) and no PLTE
    chunk, but its IDAT payload holds the samples 80, 76, 84, 69: the scan
    reports a PLTE chunk at offset 45, inside that payload, and the PLTE
    block of [decode] then reads a length of 16449280 there and fails.
    [Examples.samples_PLTF], the same stream with the last sample changed
    (equal outside the IDAT payload and CRC), has no such finding. *)
Theorem getChunkIndex_finds_payload_bytes :
  getChunkIndex Examples.samples_PLTE CHUNK_TYPE.PLTE = Ok [45]
  /\ SpecChunks.chunks Examples.samples_PLTE
     = [ (8, chunk_code CHUNK_TYPE.IHDR);
         (33, chunk_code CHUNK_TYPE.IDAT);
         (61, chunk_code CHUNK_TYPE.IEND) ]
  /\ SpecChunks.offsets_of Examples.samples_PLTE CHUNK_TYPE.PLTE = []
  /\ getChunkIndex Examples.samples_PLTF CHUNK_TYPE.PLTE = Ok []
  /\ firstn 41 Examples.samples_PLTE = firstn 41 Examples.samples_PLTF
  /\ skipn 61 Examples.samples_PLTE = skipn 61 Examples.samples_PLTF
  /\ decode_PLTE Examples.samples_PLTE = Throw RangeError
  /\ decode_PLTE Examples.samples_PLTF = Ok None.
Proof.
  repeat split; vm_compute; reflexivity.
Qed.

(** ** The signature check of decode *)

(** The fixed eight bytes every PNG stream starts with. *)
Definition PNG_signature : list byte :=
  bytes [0x89; 0x50; 0x4e; 0x47; 0x0d; 0x0a; 0x1a; 0x0a].

Lemma byte_val_inj (a b : byte) : byte_val a = byte_val b -> a = b.
Proof.
  unfold byte_val. intros H. apply N2Z.inj in H.
  pose proof (Byte.of_to_N a) as Ha. rewrite H, Byte.of_to_N in Ha.
  now injection Ha.
Qed.

Lemma byte_val_eqb_u8 (b : byte) (n : Z) :
  0 <= n < 256 -> (byte_val b =? n) = true -> b = u8 n.
Proof.
  intros Hn H. apply Z.eqb_eq in H. apply byte_val_inj. rewrite H.
  unfold u8, byte_val. rewrite Z.mod_small by exact Hn.
  destruct (Byte.of_N (Z.to_N n)) as [ c | ] eqn:E.
  - apply Byte.to_of_N in E. rewrite E. lia.
  - apply Byte.of_N_None_iff in E. lia.
Qed.

Lemma Uint8Array_view_header (header rest : list byte) :
  List.length header = 8%nat ->
  Uint8Array_view (header ++ rest) 0 8 = Ok header.
Proof.
  intros Hlen. unfold Uint8Array_view, array_length.
  rewrite length_app, Hlen.
  replace (Z.of_nat (8 + List.length rest) <? 0 + 8) with false
    by (symmetry; apply Z.ltb_ge; lia).
  cbn [Z.ltb Z.compare orb Z.to_nat skipn].
  change (Pos.to_nat 8) with 8%nat.
  rewrite <- Hlen, firstn_app, Nat.sub_diag, firstn_all.
  cbn [firstn]. now rewrite app_nil_r.
Qed.

(** The eight assertions, one after the other. *)
Lemma check_signature_eight (b0 b1 b2 b3 b4 b5 b6 b7 : byte) :
  check_signature [b0; b1; b2; b3; b4; b5; b6; b7]
  = if negb (byte_val b0 =? 0x89)
    then Throw (ExpectedToBe (VNumber (byte_val b0)) (VNumber 0x89))
    else if negb (byte_val b1 =? 0x50)
    then Throw (ExpectedToBe (VNumber (byte_val b1)) (VNumber 0x50))
    else if negb (byte_val b2 =? 0x4e)
    then Throw (ExpectedToBe (VNumber (byte_val b2)) (VNumber 0x4e))
    else if negb (byte_val b3 =? 0x47)
    then Throw (ExpectedToBe (VNumber (byte_val b3)) (VNumber 0x47))
    else if negb (byte_val b4 =? 0x0d)
    then Throw (ExpectedToBe (VNumber (byte_val b4)) (VNumber 0x0d))
    else if negb (byte_val b5 =? 0x0a)
    then Throw (ExpectedToBe (VNumber (byte_val b5)) (VNumber 0x0a))
    else if negb (byte_val b6 =? 0x1a)
    then Throw (ExpectedToBe (VNumber (byte_val b6)) (VNumber 0x1a))
    else if negb (byte_val b7 =? 0x0a)
    then Throw (ExpectedToBe (VNumber (byte_val b7)) (VNumber 0x0a))
    else Ok tt.
Proof.
  cbv -[byte_val Z.eqb].
  repeat (match goal with
          | |- context [byte_val ?b =? ?n] => destruct (byte_val b =? n)
          end; try reflexivity).
Qed.

(** A failed signature check ends [decode] at once, with the trace of
    backend calls untouched and whatever follows the header unread. *)
Lemma decode_signature_failure (inflate : list byte -> inflated)
    (header rest : list byte) (tr : trace) (e : exn) :
  List.length header = 8%nat ->
  check_signature header = Throw e ->
  decode inflate (header ++ rest) tr = (Throw e, tr).
Proof.
  intros Hlen Hsig. unfold decode, bindM, lift.
  now rewrite Uint8Array_view_header, Hsig by exact Hlen.
Qed.

(** C7.  When the buffer holds at least eight bytes and they are not the
    PNG magic, [decode] throws the failure of the assertion on the first
    byte that differs (`Expected <got> to be <want>`), leaves the trace of
    backend calls as it was, and gives the very same outcome whatever
    bytes follow the first eight: nothing after the signature is read. *)
Theorem decode_signature_mismatch (inflate : list byte -> inflated)
    (buffer : list byte) (tr : trace) :
  (8 <= List.length buffer)%nat ->
  firstn 8 buffer <> PNG_signature ->
  exists (i : nat) (got want : byte),
    (i < 8)%nat
    /\ nth_error buffer i = Some got
    /\ nth_error PNG_signature i = Some want
    /\ got <> want
    /\ firstn i buffer = firstn i PNG_signature
    /\ decode inflate buffer tr
       = (Throw (ExpectedToBe (VNumber (byte_val got)) (VNumber (byte_val want))), tr)
    /\ forall rest,
         decode inflate (firstn 8 buffer ++ rest) tr
         = (Throw (ExpectedToBe (VNumber (byte_val got)) (VNumber (byte_val want))), tr).
Proof.
  intros Hlen Hne.
  destruct buffer as [ | b0 [ | b1 [ | b2 [ | b3 [ | b4 [ | b5 [ | b6 [ | b7 rest]]]]]]]];
    cbn [List.length] in Hlen; try lia.
  cbn [firstn] in Hne |- *.
  pose proof (check_signature_eight b0 b1 b2 b3 b4 b5 b6 b7) as Hsig.
  assert (Hdec : forall e tail,
             check_signature [b0; b1; b2; b3; b4; b5; b6; b7] = Throw e ->
             decode inflate ([b0; b1; b2; b3; b4; b5; b6; b7] ++ tail) tr
             = (Throw e, tr))
    by (intros e tail He; now apply decode_signature_failure).
  destruct (byte_val b0 =? 0x89) eqn:E0; cbn [negb] in Hsig;
    [ apply byte_val_eqb_u8 in E0; [ | lia ]
    | exists 0%nat, b0, (u8 0x89); apply Z.eqb_neq in E0;
      repeat split; try reflexivity; try lia;
      [ intros ->; now apply E0 | exact (Hdec _ rest Hsig)
      | intros tail; exact (Hdec _ tail Hsig) ] ].
  destruct (byte_val b1 =? 0x50) eqn:E1; cbn [negb] in Hsig;
    [ apply byte_val_eqb_u8 in E1; [ | lia ]
    | exists 1%nat, b1, (u8 0x50); apply Z.eqb_neq in E1;
      repeat split; try reflexivity; try lia;
      [ intros ->; now apply E1 | now subst | exact (Hdec _ rest Hsig)
      | intros tail; exact (Hdec _ tail Hsig) ] ].
  destruct (byte_val b2 =? 0x4e) eqn:E2; cbn [negb] in Hsig;
    [ apply byte_val_eqb_u8 in E2; [ | lia ]
    | exists 2%nat, b2, (u8 0x4e); apply Z.eqb_neq in E2;
      repeat split; try reflexivity; try lia;
      [ intros ->; now apply E2 | now subst | exact (Hdec _ rest Hsig)
      | intros tail; exact (Hdec _ tail Hsig) ] ].
  destruct (byte_val b3 =? 0x47) eqn:E3; cbn [negb] in Hsig;
    [ apply byte_val_eqb_u8 in E3; [ | lia ]
    | exists 3%nat, b3, (u8 0x47); apply Z.eqb_neq in E3;
      repeat split; try reflexivity; try lia;
      [ intros ->; now apply E3 | now subst | exact (Hdec _ rest Hsig)
      | intros tail; exact (Hdec _ tail Hsig) ] ].
  destruct (byte_val b4 =? 0x0d) eqn:E4; cbn [negb] in Hsig;
    [ apply byte_val_eqb_u8 in E4; [ | lia ]
    | exists 4%nat, b4, (u8 0x0d); apply Z.eqb_neq in E4;
      repeat split; try reflexivity; try lia;
      [ intros ->; now apply E4 | now subst | exact (Hdec _ rest Hsig)
      | intros tail; exact (Hdec _ tail Hsig) ] ].
  destruct (byte_val b5 =? 0x0a) eqn:E5; cbn [negb] in Hsig;
    [ apply byte_val_eqb_u8 in E5; [ | lia ]
    | exists 5%nat, b5, (u8 0x0a); apply Z.eqb_neq in E5;
      repeat split; try reflexivity; try lia;
      [ intros ->; now apply E5 | now subst | exact (Hdec _ rest Hsig)
      | intros tail; exact (Hdec _ tail Hsig) ] ].
  destruct (byte_val b6 =? 0x1a) eqn:E6; cbn [negb] in Hsig;
    [ apply byte_val_eqb_u8 in E6; [ | lia ]
    | exists 6%nat, b6, (u8 0x1a); apply Z.eqb_neq in E6;
      repeat split; try reflexivity; try lia;
      [ intros ->; now apply E6 | now subst | exact (Hdec _ rest Hsig)
      | intros tail; exact (Hdec _ tail Hsig) ] ].
  destruct (byte_val b7 =? 0x0a) eqn:E7; cbn [negb] in Hsig;
    [ apply byte_val_eqb_u8 in E7; [ | lia ]
    | exists 7%nat, b7, (u8 0x0a); apply Z.eqb_neq in E7;
      repeat split; try reflexivity; try lia;
      [ intros ->; now apply E7 | now subst | exact (Hdec _ rest Hsig)
      | intros tail; exact (Hdec _ tail Hsig) ] ].
  subst. now contradiction Hne.
Qed.

(** An instance of C7: [Examples.wrong_magic]. *)
Lemma decode_signature_mismatch_witness :
  exists (i : nat) (got want : byte),
    (i < 8)%nat
    /\ nth_error Examples.wrong_magic i = Some got
    /\ nth_error PNG_signature i = Some want
    /\ got <> want
    /\ firstn i Examples.wrong_magic = firstn i PNG_signature
    /\ decode Examples.stored_inflate Examples.wrong_magic []
       = (Throw (ExpectedToBe (VNumber (byte_val got)) (VNumber (byte_val want))), [])
    /\ forall rest,
         decode Examples.stored_inflate (firstn 8 Examples.wrong_magic ++ rest) []
         = (Throw (ExpectedToBe (VNumber (byte_val got)) (VNumber (byte_val want))), []).
Proof.
  apply (decode_signature_mismatch Examples.stored_inflate Examples.wrong_magic []).
  - vm_compute. lia.
  - vm_compute. intros H. discriminate H.
Defined.

(** A buffer shorter than the signature never reaches the assertions:
    the view of its first eight bytes cannot be built. *)
Lemma decode_short_buffer (inflate : list byte -> inflated)
    (buffer : list byte) (tr : trace) :
  (List.length buffer < 8)%nat ->
  decode inflate buffer tr = (Throw RangeError, tr).
Proof.
  intros H. unfold decode, bindM, lift, Uint8Array_view, array_length.
  replace (Z.of_nat (List.length buffer) <? 0 + 8) with true
    by (symmetry; apply Z.ltb_lt; lia).
  reflexivity.
Qed.

(** ** decodePLTE *)

Lemma slice_suffix {A : Type} (pre post : list A) :
  slice (pre ++ post) (array_length pre) (array_length (pre ++ post)) = post.
Proof.
  unfold slice, array_length, relative_index. rewrite length_app.
  replace (Z.of_nat (List.length pre) <? 0) with false
    by (symmetry; apply Z.ltb_ge; lia).
  replace (Z.of_nat (List.length pre + List.length post) <? 0) with false
    by (symmetry; apply Z.ltb_ge; lia).
  rewrite Z.min_id. rewrite Z.min_l by lia.
  rewrite Nat2Z.id, skipn_app, skipn_all, Nat.sub_diag.
  cbn [skipn app].
  replace (Z.to_nat (Z.of_nat (List.length pre + List.length post)
                     - Z.of_nat (List.length pre)))
    with (List.length post) by lia.
  apply firstn_all.
Qed.

Lemma slice_window {A : Type} (l : list A) (a b : Z) :
  0 <= a <= b -> b <= array_length l ->
  slice l a b = firstn (Z.to_nat (b - a)) (skipn (Z.to_nat a) l).
Proof.
  unfold slice, array_length, relative_index. intros Ha Hb.
  replace (a <? 0) with false by (symmetry; apply Z.ltb_ge; lia).
  replace (b <? 0) with false by (symmetry; apply Z.ltb_ge; lia).
  now rewrite !Z.min_l by lia.
Qed.

(** The loop of [decodePLTE] on data whose remaining length is a multiple
    of 3: one slice of three bytes per iteration. *)
Lemma decodePLTE_loop_slices (data : list byte) (m : nat) :
  forall (fuel : nat) (i : Z) (decode : list (list byte)),
    (m <= fuel)%nat ->
    array_length data - i = 3 * Z.of_nat m ->
    decodePLTE_loop fuel data i decode
    = decode ++ map (fun j => slice data (i + 3 * Z.of_nat j) (i + 3 * Z.of_nat j + 3))
                    (seq 0 m).
Proof.
  induction m as [ | m IH ]; intros fuel i decode Hfuel Hlen.
  - cbn [seq map]. rewrite app_nil_r.
    destruct fuel as [ | fuel ]; [ reflexivity | ].
    cbn [decodePLTE_loop].
    replace (i <? array_length data) with false
      by (symmetry; apply Z.ltb_ge; lia).
    reflexivity.
  - destruct fuel as [ | fuel ]; [ lia | ].
    cbn [decodePLTE_loop].
    replace (i <? array_length data) with true
      by (symmetry; apply Z.ltb_lt; lia).
    rewrite (IH fuel (i + 3) (decode ++ [slice data i (i + 3)])) by lia.
    rewrite <- app_assoc. f_equal. cbn [seq map app].
    f_equal.
    + f_equal; lia.
    + rewrite <- seq_shift, map_map. apply map_ext. intros j.
      f_equal; lia.
Qed.

Lemma three_bytes_at {A : Type} (l : list A) (j : nat) :
  (3 * j + 3 <= List.length l)%nat ->
  exists r g b,
    nth_error l (3 * j) = Some r
    /\ nth_error l (3 * j + 1) = Some g
    /\ nth_error l (3 * j + 2) = Some b
    /\ firstn 3 (skipn (3 * j) l) = [r; g; b].
Proof.
  intros H.
  pose proof (length_skipn (3 * j) l) as Hlen.
  pose proof (nth_error_skipn (3 * j) l 0) as H0.
  pose proof (nth_error_skipn (3 * j) l 1) as H1.
  pose proof (nth_error_skipn (3 * j) l 2) as H2.
  destruct (skipn (3 * j) l) as [ | r [ | g [ | b tl ] ] ];
    cbn [List.length] in Hlen; try lia.
  exists r, g, b. cbn [nth_error] in H0, H1, H2.
  rewrite Nat.add_0_r in H0. now rewrite <- H0, <- H1, <- H2.
Qed.

Lemma decodePLTE_malformed (chunk : list byte) :
  rem (number (slice chunk 0 4)) 3 <> 0 ->
  decodePLTE chunk
  = Throw (Thrown "Malformed PLTE chunk, the length is not divisble by 3").
Proof.
  intros H. unfold decodePLTE, Assert.equal. cbn [Assert.value_ Assert.message Assert.assert strict_eq].
  apply Z.eqb_neq in H. rewrite H. reflexivity.
Qed.

Lemma decodePLTE_well_formed (lengthBytes payload : list byte) :
  List.length lengthBytes = 4%nat ->
  rem (number lengthBytes) 3 = 0 ->
  decodePLTE (lengthBytes ++ bytes (chunk_code CHUNK_TYPE.PLTE) ++ payload)
  = Ok (decodePLTE_loop (List.length payload) payload 0 []).
Proof.
  intros Hlen Hrem.
  destruct lengthBytes as [ | l0 [ | l1 [ | l2 [ | l3 [ | ] ] ] ] ]; try discriminate Hlen.
  unfold decodePLTE.
  replace (slice ([l0; l1; l2; l3] ++ bytes (chunk_code CHUNK_TYPE.PLTE) ++ payload) 0 4)
    with [l0; l1; l2; l3]
    by (rewrite (slice_app_prefix [l0; l1; l2; l3]); [ reflexivity | lia | cbn; lia ]).
  rewrite Hrem.
  replace (expect_type _ CHUNK_TYPE.PLTE "Expected PLTE header") with (Ok tt)
    by reflexivity.
  cbn [bind Assert.equal Assert.value_ Assert.message Assert.assert strict_eq Z.eqb].
  rewrite app_assoc.
  change 8 with (array_length ([l0; l1; l2; l3] ++ bytes (chunk_code CHUNK_TYPE.PLTE))).
  now rewrite slice_suffix.
Qed.

(** The declared length as [number] reads it.  [decodePLTE] throws
    `Malformed PLTE chunk, the length is not divisble by 3` for every chunk
    whose length bytes [number] reads as a value that [%] does not find
    divisible by 3.  For a chunk made of four length bytes, the type code
    and a payload whose size is the value [number] reads (which needs a
    length below [2^31]) and is a multiple of 3, it returns exactly
    length/3 entries, and entry [j] is made of the payload bytes at
    offsets [3j], [3j+1] and [3j+2]. *)
Theorem decodePLTE_entries (chunk lengthBytes payload : list byte) :
  (rem (number (slice chunk 0 4)) 3 <> 0 ->
   decodePLTE chunk
   = Throw (Thrown "Malformed PLTE chunk, the length is not divisble by 3"))
  /\ (List.length lengthBytes = 4%nat ->
      number lengthBytes = array_length payload ->
      rem (array_length payload) 3 = 0 ->
      exists entries,
        decodePLTE (lengthBytes ++ bytes (chunk_code CHUNK_TYPE.PLTE) ++ payload)
        = Ok entries
        /\ array_length entries = array_length payload / 3
        /\ forall j, (j < List.length entries)%nat ->
             exists r g b,
               nth_error payload (3 * j) = Some r
               /\ nth_error payload (3 * j + 1) = Some g
               /\ nth_error payload (3 * j + 2) = Some b
               /\ nth_error entries j = Some [r; g; b]).
Proof.
  split; [ apply decodePLTE_malformed | ].
  intros Hlen Hnum Hrem.
  assert (Hm : array_length payload = 3 * Z.of_nat (Z.to_nat (array_length payload / 3))).
  { unfold rem in Hrem. unfold array_length in *.
    rewrite Z.rem_mod_nonneg in Hrem by lia.
    pose proof (Z.div_mod (Z.of_nat (List.length payload)) 3 ltac:(lia)) as Hd.
    pose proof (Z.div_pos (Z.of_nat (List.length payload)) 3 ltac:(lia) ltac:(lia)).
    lia. }
  set (m := Z.to_nat (array_length payload / 3)) in *.
  rewrite decodePLTE_well_formed by (try exact Hlen; now rewrite Hnum).
  rewrite (decodePLTE_loop_slices payload m) by (unfold array_length in *; lia).
  cbn [app].
  eexists. split; [ reflexivity | ]. split.
  - unfold array_length at 1. rewrite length_map, length_seq.
    subst m. rewrite Z2Nat.id; [ reflexivity | ].
    apply Z.div_pos; unfold array_length; lia.
  - intros j Hj. rewrite length_map, length_seq in Hj.
    destruct (three_bytes_at payload j) as (r & g & b & Hr & Hg & Hb & Hfirst);
      [ unfold array_length in Hm; lia | ].
    exists r, g, b. repeat split; try assumption.
    rewrite nth_error_map, nth_error_seq.
    replace (Nat.ltb j m) with true by (symmetry; apply Nat.ltb_lt; exact Hj).
    cbn [option_map Nat.add]. f_equal.
    rewrite slice_window by (unfold array_length in *; lia).
    replace (Z.to_nat (0 + 3 * Z.of_nat j + 3 - (0 + 3 * Z.of_nat j))) with 3%nat by lia.
    replace (Z.to_nat (0 + 3 * Z.of_nat j)) with (3 * j)%nat by lia.
    exact Hfirst.
Qed.

(** An instance: a chunk of declared length 4, and the one-entry palette
    255, 0, 0. *)
Lemma decodePLTE_entries_witness :
  decodePLTE Examples.four_byte_PLTE
  = Throw (Thrown "Malformed PLTE chunk, the length is not divisble by 3")
  /\ exists entries,
       decodePLTE (bytes [0; 0; 0; 3] ++ bytes (chunk_code CHUNK_TYPE.PLTE)
                   ++ bytes [255; 0; 0])
       = Ok entries
       /\ array_length entries = array_length (bytes [255; 0; 0]) / 3
       /\ forall j, (j < List.length entries)%nat ->
            exists r g b,
              nth_error (bytes [255; 0; 0]) (3 * j) = Some r
              /\ nth_error (bytes [255; 0; 0]) (3 * j + 1) = Some g
              /\ nth_error (bytes [255; 0; 0]) (3 * j + 2) = Some b
              /\ nth_error entries j = Some [r; g; b].
Proof.
  pose proof (decodePLTE_entries Examples.four_byte_PLTE
                (bytes [0; 0; 0; 3]) (bytes [255; 0; 0])) as [Hbad Hgood].
  split.
  - apply Hbad. vm_compute. intros H. discriminate H.
  - apply Hgood; reflexivity.
Defined.

(** ** The IDAT block of decode *)

(** The length declared at offset [x], and the payload that follows the
    eight bytes of length and type code there. *)
Definition declared_length (buffer : list byte) (x : Z) : Z :=
  number (firstn 4 (skipn (Z.to_nat x) buffer)).

Definition chunk_payload (buffer : list byte) (x : Z) : list byte :=
  firstn (Z.to_nat (declared_length buffer x)) (skipn (Z.to_nat (x + 8)) buffer).

Lemma Uint8Array_view_Ok (buffer v : list byte) (off len : Z) :
  Uint8Array_view buffer off len = Ok v ->
  0 <= off /\ 0 <= len /\ off + len <= array_length buffer
  /\ v = firstn (Z.to_nat len) (skipn (Z.to_nat off) buffer)
  /\ array_length v = len.
Proof.
  unfold Uint8Array_view.
  destruct (off <? 0) eqn:Hoff; [ discriminate | ].
  destruct (len <? 0) eqn:Hlen; [ discriminate | ].
  destruct (array_length buffer <? off + len) eqn:Hfit; [ discriminate | ].
  cbn [orb]. intros H. injection H as <-.
  apply Z.ltb_ge in Hoff, Hlen, Hfit.
  repeat split; try assumption.
  unfold array_length in *. rewrite length_firstn, length_skipn. lia.
Qed.

Lemma expect_type_length (chunk : list byte) (type : ChunkType) (m : string) :
  expect_type chunk type m = Ok tt -> 8 <= array_length chunk.
Proof.
  unfold expect_type.
  destruct (Assert.equal _ _); [ | discriminate ]. cbn [bind].
  destruct (Assert.equal _ _); [ | discriminate ]. cbn [bind].
  destruct (Assert.equal _ _); [ | discriminate ]. cbn [bind].
  unfold Assert.equal, byte_at, index.
  cbn [Assert.value_ Assert.message Assert.assert Z.ltb Z.compare].
  destruct (nth_error chunk (Z.to_nat 7)) eqn:E; [ | discriminate ].
  intros _.
  assert (H : nth_error chunk (Z.to_nat 7) <> None) by congruence.
  apply nth_error_Some in H. unfold array_length. lia.
Qed.

(** What one run of the callback hands to the backend: nothing when it
    fails before the call, otherwise the payload of the chunk at [x]. *)
Lemma IDAT_callback_trace (inflate : list byte -> inflated)
    (buffer : list byte) (x : Z) (tr tr' : trace) (r : result (list byte)) :
  IDAT_callback inflate buffer x tr = (r, tr') ->
  (tr' = tr /\ exists e, r = Throw e)
  \/ tr' = tr ++ [chunk_payload buffer x].
Proof.
  unfold IDAT_callback, bindM, lift.
  destruct (Uint8Array_view buffer x 4) as [ lengthBytes | e ] eqn:V4;
    [ | intros H; injection H as <- <-; left; eauto ].
  destruct (Uint8Array_view buffer x (number lengthBytes + 8)) as [ chunk | e ] eqn:V;
    [ | intros H; injection H as <- <-; left; eauto ].
  unfold decodeIDAT, bindM, lift.
  destruct (expect_type chunk CHUNK_TYPE.IDAT "Expected IDAT header") as [ [] | e ] eqn:T;
    [ | intros H; injection H as <- <-; left; eauto ].
  apply expect_type_length in T.
  apply Uint8Array_view_Ok in V4. destruct V4 as (Hx & _ & Hfit4 & Hbytes & Hlen4).
  apply Uint8Array_view_Ok in V. destruct V as (_ & Hlen & Hfit & Hchunk & Hclen).
  assert (Hslice : slice chunk 0 4 = lengthBytes).
  { rewrite slice_window by lia. cbn [Z.sub Z.to_nat skipn Z.opp Z.add].
    change (Pos.to_nat 4) with 4%nat.
    rewrite Hchunk, firstn_firstn, Nat.min_l by lia.
    symmetry. exact Hbytes. }
  assert (Hpayload : slice chunk 8 (number (slice chunk 0 4) + 8)
                     = chunk_payload buffer x).
  { rewrite Hslice. rewrite slice_window by lia.
    unfold chunk_payload, declared_length.
    change (Z.to_nat 4) with 4%nat in Hbytes. rewrite <- Hbytes.
    replace (number lengthBytes + 8 - 8) with (number lengthBytes) by lia.
    rewrite Hchunk, skipn_firstn_comm, firstn_firstn, skipn_skipn.
    change (Z.to_nat 8) with 8%nat.
    f_equal; [ lia | f_equal; lia ]. }
  rewrite Hpayload. unfold pako_inflate.
  destruct (inflate (chunk_payload buffer x));
    intros H; injection H as <- <-; right; reflexivity.
Qed.

Lemma forEach_IDAT_trace (inflate : list byte -> inflated) (buffer : list byte) :
  forall (dataIndices : list Z) (rawData : list (list byte)) (tr : trace),
  exists n : nat,
    (n <= List.length dataIndices)%nat
    /\ snd (forEach_IDAT inflate buffer dataIndices rawData tr)
       = tr ++ map (chunk_payload buffer) (firstn n dataIndices)
    /\ (forall out, fst (forEach_IDAT inflate buffer dataIndices rawData tr) = Ok out ->
        n = List.length dataIndices).
Proof.
  induction dataIndices as [ | x rest IH ]; intros rawData tr.
  - exists 0%nat. cbn. rewrite app_nil_r. auto.
  - cbn [forEach_IDAT]. unfold bindM.
    destruct (IDAT_callback inflate buffer x tr) as [r tr1] eqn:Hcb.
    apply IDAT_callback_trace in Hcb.
    destruct r as [ raw | e ].
    + destruct Hcb as [ (_ & e & He) | -> ]; [ discriminate He | ].
      destruct (IH (rawData ++ [raw]) (tr ++ [chunk_payload buffer x]))
        as (n & Hn & Htr & Hok).
      exists (S n). cbn [List.length firstn map]. repeat split.
      * lia.
      * rewrite Htr, <- app_assoc. reflexivity.
      * intros out Hout. f_equal. now apply (Hok out).
    + destruct Hcb as [ (-> & _) | -> ].
      * exists 0%nat. cbn. rewrite app_nil_r. repeat split; [ lia | discriminate ].
      * exists 1%nat. cbn. repeat split; [ lia | discriminate ].
Qed.

(** C3 does not hold as stated: on [Examples.two_IDAT], a stream with two
    IDAT chunks, [decode] as a whole never calls the backend (it fails in
    [decodeIHDR] first), and the IDAT block calls it twice, once on each
    payload, never on the two payloads put together. *)
Lemma two_IDAT_inflated_separately :
  getChunkIndex Examples.two_IDAT CHUNK_TYPE.IDAT = Ok [33; 59]
  /\ snd (decode Examples.stored_inflate Examples.two_IDAT []) = []
  /\ decode_IDAT Examples.stored_inflate Examples.two_IDAT []
     = (Ok "0,0,255,0,128,64"%string,
        [Examples.first_IDAT_payload; Examples.second_IDAT_payload])
  /\ [Examples.first_IDAT_payload; Examples.second_IDAT_payload]
     <> [Examples.first_IDAT_payload ++ Examples.second_IDAT_payload].
Proof.
  repeat split; try (vm_compute; reflexivity).
  intros H. discriminate H.
Qed.

(** ** The chunk checks of decode *)

Lemma expect_IHDR_failure (chunk : list byte) :
  expect_type chunk CHUNK_TYPE.IHDR "Expected IHDR header" <> Ok tt ->
  expect_type chunk CHUNK_TYPE.IHDR "Expected IHDR header"
  = Throw (Thrown "Expected IHDR header").
Proof.
  unfold expect_type, Assert.equal.
  cbn [Assert.value_ Assert.message Assert.assert].
  destruct (strict_eq (byte_at chunk 4) _); [ | reflexivity ]. cbn [bind].
  destruct (strict_eq (byte_at chunk 5) _); [ | reflexivity ]. cbn [bind].
  destruct (strict_eq (byte_at chunk 6) _); [ | reflexivity ]. cbn [bind].
  destruct (strict_eq (byte_at chunk 7) _); [ | reflexivity ].
  intros H. now contradiction H.
Qed.

(** C6, as the program has it.  [decode] has three checks on the chunks
    of a stream: more than one occurrence of the PLTE type code is
    refused (`Found multiple PLTE chunks, which is not supported`), no
    occurrence of the IDAT type code is refused (`No IDAT chunk found`),
    and the chunk right after the signature must carry the IHDR type code
    (`Expected IHDR header`).  The position of PLTE relative to IDAT is
    not looked at: there is a stream with its PLTE chunk after its IDAT
    chunk that both blocks accept. *)
Theorem decode_chunk_checks (inflate : list byte -> inflated)
    (buffer header chunk : list byte) (plteIndices : list Z) (tr : trace) :
  (getChunkIndex buffer CHUNK_TYPE.PLTE = Ok plteIndices ->
   (2 <= List.length plteIndices)%nat ->
   decode_PLTE buffer
   = Throw (Thrown "Found multiple PLTE chunks, which is not supported"))
  /\ (getChunkIndex buffer CHUNK_TYPE.IDAT = Ok [] ->
      decode_IDAT inflate buffer tr = (Throw (Thrown "No IDAT chunk found"), tr))
  /\ (Uint8Array_view buffer 0 8 = Ok header ->
      check_signature header = Ok tt ->
      Uint8Array_view buffer 8 21 = Ok chunk ->
      number (slice chunk 0 4) = 13 ->
      expect_type chunk CHUNK_TYPE.IHDR "Expected IHDR header" <> Ok tt ->
      decode inflate buffer tr = (Throw (Thrown "Expected IHDR header"), tr))
  /\ (exists stream p d palette raw,
        getChunkIndex stream CHUNK_TYPE.PLTE = Ok [p]
        /\ getChunkIndex stream CHUNK_TYPE.IDAT = Ok [d]
        /\ d < p
        /\ decode_PLTE stream = Ok (Some palette)
        /\ fst (decode_IDAT Examples.stored_inflate stream []) = Ok raw).
Proof.
  split; [ | split; [ | split ] ].
  - intros Hidx Hlen. unfold decode_PLTE. rewrite Hidx. cbn [bind].
    replace (1 <? array_length plteIndices) with true
      by (symmetry; apply Z.ltb_lt; unfold array_length; lia).
    reflexivity.
  - intros Hidx. unfold decode_IDAT, bindM, lift. rewrite Hidx. reflexivity.
  - intros Hview Hsig Hchunk Hlen Htype.
    unfold decode, bindM, lift. rewrite Hview, Hsig, Hchunk.
    rewrite decodeIHDR_guards, Hlen, (expect_IHDR_failure chunk Htype).
    reflexivity.
  - exists Examples.PLTE_after_IDAT, 58, 33.
    eexists. eexists. repeat split; vm_compute; reflexivity.
Qed.

(** Instances of C6: [Examples.two_PLTE], [Examples.no_IDAT] and
    [Examples.IDAT_first]. *)
Lemma decode_chunk_checks_witness :
  decode_PLTE Examples.two_PLTE
  = Throw (Thrown "Found multiple PLTE chunks, which is not supported")
  /\ decode_IDAT Examples.stored_inflate Examples.no_IDAT []
     = (Throw (Thrown "No IDAT chunk found"), [])
  /\ decode Examples.stored_inflate Examples.IDAT_first []
     = (Throw (Thrown "Expected IHDR header"), []).
Proof.
  split; [ | split ].
  - apply (proj1 (decode_chunk_checks Examples.stored_inflate
                    Examples.two_PLTE [] [] [33; 48] [])).
    + vm_compute. reflexivity.
    + cbn. lia.
  - apply (proj1 (proj2 (decode_chunk_checks Examples.stored_inflate
                           Examples.no_IDAT [] [] [] []))).
    vm_compute. reflexivity.
  - apply (proj1 (proj2 (proj2 (decode_chunk_checks Examples.stored_inflate
                                  Examples.IDAT_first
                                  (firstn 8 Examples.IDAT_first)
                                  (firstn 21 (skipn 8 Examples.IDAT_first))
                                  [] [])))).
    + reflexivity.
    + reflexivity.
    + reflexivity.
    + reflexivity.
    + vm_compute. intros H. discriminate H.
Defined.

(** C6 does not hold as stated: [Examples.PLTE_after_IDAT] has its PLTE
    chunk (offset 58) after its IDAT chunk (offset 33).  [decode] fails on
    it with the ReferenceError of [decodeIHDR], which says nothing about
    the order of chunks, and the PLTE block and the IDAT block both accept
    the stream. *)
Lemma PLTE_after_IDAT_accepted :
  getChunkIndex Examples.PLTE_after_IDAT CHUNK_TYPE.IDAT = Ok [33]
  /\ getChunkIndex Examples.PLTE_after_IDAT CHUNK_TYPE.PLTE = Ok [58]
  /\ decode Examples.stored_inflate Examples.PLTE_after_IDAT []
     = (Throw (ReferenceError "colorType"), [])
  /\ decode_PLTE Examples.PLTE_after_IDAT = Ok (Some [bytes [255; 0; 0]])
  /\ fst (decode_IDAT Examples.stored_inflate Examples.PLTE_after_IDAT [])
     = Ok "0,0"%string.
Proof.
  repeat split; vm_compute; reflexivity.
Qed.

(** * Further properties of the decoder *)

From Stdlib Require Import Sorted.

(** ** getChunkIndex in closed form *)

(** The positions [i], [i+1], ..., [i+n-1]. *)
Fixpoint Zrange (i : Z) (n : nat) : list Z :=
  match n with
  | O => []
  | S n' => i :: Zrange (i + 1) n'
  end.

Definition malformed_chunk_layout : exn :=
  Thrown "Malformed chunk layout, found chunk type without length byte".

Lemma in_Zrange (i : Z) (n : nat) (x : Z) :
  In x (Zrange i n) <-> i <= x < i + Z.of_nat n.
Proof.
  revert i. induction n as [ | n IH ]; intros i; cbn [Zrange In].
  - lia.
  - rewrite IH. lia.
Qed.

Lemma type_matches_in_bounds (data : list byte) (type : ChunkType) (i : Z) :
  type_matches data type i = true -> 0 <= i /\ i + 4 <= array_length data.
Proof.
  unfold type_matches. rewrite !andb_true_iff. intros [[[H0 _] _] H3].
  unfold byte_at, index in H0, H3.
  destruct (i <? 0) eqn:Hi; [ discriminate H0 | ]. apply Z.ltb_ge in Hi.
  destruct (i + 3 <? 0); [ discriminate H3 | ].
  destruct (nth_error data (Z.to_nat (i + 3))) eqn:E; [ | discriminate H3 ].
  assert (Hn : nth_error data (Z.to_nat (i + 3)) <> None) by congruence.
  apply nth_error_Some in Hn. unfold array_length. lia.
Qed.

Lemma greater_zero (v : Z) :
  Assert.greater
    (Assert.message (Assert.assert (VNumber v))
       "Malformed chunk layout, found chunk type without length byte") 0
  = if v <? 0 then Throw malformed_chunk_layout else Ok tt.
Proof. unfold Assert.greater. cbn. destruct (v <? 0); reflexivity. Qed.

Lemma getChunkIndex_loop_closed (fuel : nat) (data : list byte) (type : ChunkType) :
  forall (i : Z) (findings : list Z),
    i + Z.of_nat fuel = array_length data ->
    getChunkIndex_loop fuel data type i findings
    = if existsb (fun j => (j <? 4) && type_matches data type j) (Zrange i fuel)
      then Throw malformed_chunk_layout
      else Ok (findings
               ++ map (fun j => j - 4)
                    (List.filter (type_matches data type) (Zrange i fuel))).
Proof.
  induction fuel as [ | fuel IH ]; intros i findings Hlen.
  - cbn. now rewrite app_nil_r.
  - cbn [getChunkIndex_loop Zrange existsb List.filter].
    replace (i <? array_length data) with true by (symmetry; apply Z.ltb_lt; lia).
    destruct (type_matches data type i) eqn:Hm.
    + rewrite greater_zero. rewrite andb_true_r.
      replace (i - 4 <? 0) with (i <? 4)
        by (destruct (i <? 4) eqn:E; symmetry;
            [ apply Z.ltb_lt; apply Z.ltb_lt in E | apply Z.ltb_ge; apply Z.ltb_ge in E ];
            lia).
      destruct (i <? 4); [ reflexivity | ].
      cbn [bind orb map]. rewrite IH by lia.
      destruct (existsb _ _); [ reflexivity | ].
      now rewrite <- app_assoc.
    + rewrite andb_false_r. cbn [orb]. now rewrite IH by lia.
Qed.

Lemma existsb_first_four (data : list byte) (type : ChunkType) :
  existsb (fun j => (j <? 4) && type_matches data type j)
    (Zrange 0 (List.length data))
  = existsb (type_matches data type) [0; 1; 2; 3].
Proof.
  apply eq_true_iff_eq. rewrite !existsb_exists. split.
  - intros (j & Hin & Hj). apply andb_true_iff in Hj. destruct Hj as [Hlt Hm].
    apply in_Zrange in Hin. apply Z.ltb_lt in Hlt.
    exists j. split; [ | exact Hm ].
    cbn [In]. lia.
  - intros (j & Hin & Hm). exists j.
    pose proof (type_matches_in_bounds _ _ _ Hm) as [H0 Hb].
    unfold array_length in Hb.
    split; [ apply in_Zrange; lia | ].
    rewrite Hm, andb_true_r. apply Z.ltb_lt.
    cbn [In] in Hin. lia.
Qed.

Lemma getChunkIndex_unfolded (buffer : list byte) (type : ChunkType) :
  getChunkIndex buffer type
  = if existsb (type_matches buffer type) [0; 1; 2; 3]
    then Throw malformed_chunk_layout
    else Ok (map (fun i => i - 4)
               (List.filter (type_matches buffer type)
                  (Zrange 0 (List.length buffer)))).
Proof.
  unfold getChunkIndex.
  rewrite getChunkIndex_loop_closed by reflexivity.
  now rewrite existsb_first_four.
Qed.

(** X1.  [getChunkIndex] in closed form.  It throws `Malformed chunk
    layout, found chunk type without length byte` exactly when the four
    code bytes occur at one of the positions 0 to 3; otherwise it returns,
    in increasing order of position, [i - 4] for every position [i] of
    the buffer at which the four code bytes occur. *)
Theorem getChunkIndex_closed_form (buffer : list byte) (type : ChunkType) :
  getChunkIndex buffer type
  = if existsb (type_matches buffer type) [0; 1; 2; 3]
    then Throw malformed_chunk_layout
    else Ok (map (fun i => i - 4)
               (List.filter (type_matches buffer type)
                  (Zrange 0 (List.length buffer)))).
Proof. exact (getChunkIndex_unfolded buffer type). Qed.

Lemma findings_sorted (f : Z -> bool) (n : nat) :
  forall i : Z,
    StronglySorted Z.lt (map (fun j => j - 4) (List.filter f (Zrange i n)))
    /\ Forall (fun y => i - 4 <= y) (map (fun j => j - 4) (List.filter f (Zrange i n))).
Proof.
  induction n as [ | n IH ]; intros i; cbn [Zrange List.filter].
  - split; constructor.
  - destruct (IH (i + 1)) as [Hs Hb].
    assert (Hb' : Forall (fun y => i - 4 < y)
                    (map (fun j => j - 4) (List.filter f (Zrange (i + 1) n))))
      by (eapply Forall_impl; [ | exact Hb ]; cbn; intros; lia).
    destruct (f i); cbn [map].
    + split.
      * constructor; assumption.
      * constructor; [ lia | ].
        eapply Forall_impl; [ | exact Hb' ]. cbn. intros. lia.
    + split; [ exact Hs | ].
      eapply Forall_impl; [ | exact Hb' ]. cbn. intros. lia.
Qed.

Lemma Uint8Array_view_fits (buffer : list byte) (off len : Z) :
  0 <= off -> 0 <= len -> off + len <= array_length buffer ->
  Uint8Array_view buffer off len
  = Ok (firstn (Z.to_nat len) (skipn (Z.to_nat off) buffer)).
Proof.
  intros Hoff Hlen Hfit. unfold Uint8Array_view.
  replace (off <? 0) with false by (symmetry; apply Z.ltb_ge; lia).
  replace (len <? 0) with false by (symmetry; apply Z.ltb_ge; lia).
  replace (array_length buffer <? off + len) with false
    by (symmetry; apply Z.ltb_ge; lia).
  reflexivity.
Qed.

Lemma getChunkIndex_member (buffer : list byte) (type : ChunkType)
    (findings : list Z) (x : Z) :
  getChunkIndex buffer type = Ok findings ->
  In x findings ->
  0 <= x /\ x + 8 <= array_length buffer
  /\ type_matches buffer type (x + 4) = true.
Proof.
  rewrite getChunkIndex_unfolded.
  destruct (existsb (type_matches buffer type) [0; 1; 2; 3]) eqn:Hfirst;
    [ discriminate | ].
  intros H Hx. injection H as <-.
  apply in_map_iff in Hx. destruct Hx as (i & <- & Hi).
  apply filter_In in Hi. destruct Hi as [_ Hm].
  pose proof (type_matches_in_bounds _ _ _ Hm) as [H0 Hb].
  assert (H4 : 4 <= i).
  { destruct (Z_lt_le_dec i 4) as [Hlt | Hge]; [ exfalso | exact Hge ].
    assert (Hex : existsb (type_matches buffer type) [0; 1; 2; 3] = true).
    { apply existsb_exists. exists i. split; [ cbn [In]; lia | exact Hm ]. }
    congruence. }
  replace (i - 4 + 4) with i by lia.
  repeat split; try lia; exact Hm.
Qed.

(** X2.  What a successful [getChunkIndex] returns: the indices are
    strictly increasing, each is non-negative and has the four code bytes
    at its offset 4, so the eight bytes of length and type lie inside the
    buffer and the view [new Uint8Array(buffer, x, 4)] that [decode]
    builds on each index cannot raise a RangeError. *)
Theorem getChunkIndex_findings (buffer : list byte) (type : ChunkType)
    (findings : list Z) :
  getChunkIndex buffer type = Ok findings ->
  StronglySorted Z.lt findings
  /\ forall x, In x findings ->
       0 <= x
       /\ x + 8 <= array_length buffer
       /\ type_matches buffer type (x + 4) = true
       /\ Uint8Array_view buffer x 4
          = Ok (firstn 4 (skipn (Z.to_nat x) buffer)).
Proof.
  intros Hrun. split.
  - rewrite getChunkIndex_unfolded in Hrun.
    destruct (existsb (type_matches buffer type) [0; 1; 2; 3]);
      [ discriminate | ].
    injection Hrun as <-. apply (findings_sorted _ _ 0).
  - intros x Hx.
    destruct (getChunkIndex_member _ _ _ _ Hrun Hx) as (H0 & Hb & Hm).
    repeat split; try assumption.
    rewrite Uint8Array_view_fits by lia. reflexivity.
Qed.

(** An instance of X2: the IDAT index of [Examples.gray2x2]. *)
Lemma getChunkIndex_findings_witness :
  StronglySorted Z.lt [33]
  /\ forall x, In x [33] ->
       0 <= x
       /\ x + 8 <= array_length Examples.gray2x2
       /\ type_matches Examples.gray2x2 CHUNK_TYPE.IDAT (x + 4) = true
       /\ Uint8Array_view Examples.gray2x2 x 4
          = Ok (firstn 4 (skipn (Z.to_nat x) Examples.gray2x2)).
Proof.
  apply (getChunkIndex_findings Examples.gray2x2 CHUNK_TYPE.IDAT [33]).
  vm_compute. reflexivity.
Defined.

(** ** number beyond the four-byte case *)

Lemma number_loop_shift (rest : list byte) :
  forall (n i acc : Z),
    number_loop (n + 1) rest (i + 1) acc = number_loop n rest i acc.
Proof.
  induction rest as [ | b rest IH ]; intros n i acc; cbn [number_loop].
  - reflexivity.
  - replace ((n + 1 - (i + 1 + 1)) * 8) with ((n - (i + 1)) * 8) by lia.
    apply IH.
Qed.

Lemma number_loop_acc (rest : list byte) :
  forall (n i acc : Z),
    number_loop n rest i acc = acc + number_loop n rest i 0.
Proof.
  induction rest as [ | b rest IH ]; intros n i acc; cbn [number_loop].
  - lia.
  - rewrite (IH n (i + 1) (acc + _)), (IH n (i + 1) (0 + _)). lia.
Qed.

(** The byte in front is shifted by eight bits for every byte behind it. *)
Lemma number_cons (b : byte) (bs : list byte) :
  number (b :: bs) = shl (byte_val b) (8 * array_length bs) + number bs.
Proof.
  unfold number, array_length. cbn [number_loop List.length].
  rewrite Nat2Z.inj_succ.
  replace (Z.succ (Z.of_nat (List.length bs))) with (Z.of_nat (List.length bs) + 1) by lia.
  rewrite number_loop_shift, number_loop_acc.
  rewrite Z.add_0_l. f_equal. f_equal. lia.
Qed.

Lemma number_nil : number [] = 0.
Proof. reflexivity. Qed.

(** The big-endian unsigned value of a byte sequence. *)
Definition big_endian (bs : list byte) : Z :=
  fold_left (fun acc b => acc * 256 + byte_val b) bs 0.

(** X3.  Up to four bytes, and below [2^31], [number] is the big-endian
    unsigned value of its argument: this covers every one-byte header
    field and every four-byte length or dimension with its top bit
    clear. *)
Theorem number_big_endian (bs : list byte) :
  (List.length bs <= 4)%nat ->
  big_endian bs < 2 ^ 31 ->
  number bs = big_endian bs /\ 0 <= number bs.
Proof.
  intros Hlen Hval. unfold big_endian in *.
  destruct bs as [ | b0 [ | b1 [ | b2 [ | b3 [ | b4 bs ] ] ] ] ];
    cbn [List.length] in Hlen; try lia; cbn [fold_left] in Hval |- *.
  - rewrite number_nil. lia.
  - pose proof (byte_val_range b0).
    rewrite number_one_byte. lia.
  - pose proof (byte_val_range b0). pose proof (byte_val_range b1).
    rewrite number_cons, number_one_byte. cbn [array_length List.length Z.of_nat Z.mul Pos.of_succ_nat Pos.mul].
    rewrite (shl_byte_low b0 8) by lia. change (2 ^ 8) with 256. lia.
  - pose proof (byte_val_range b0). pose proof (byte_val_range b1).
    pose proof (byte_val_range b2).
    rewrite !number_cons, number_nil.
    change (8 * array_length [b1; b2]) with 16.
    change (8 * array_length [b2]) with 8.
    change (8 * array_length (@nil byte)) with 0.
    rewrite (shl_byte_low b0 16), (shl_byte_low b1 8), (shl_byte_low b2 0) by lia.
    change (2 ^ 16) with 65536. change (2 ^ 8) with 256. change (2 ^ 0) with 1. lia.
  - pose proof (byte_val_range b0). pose proof (byte_val_range b1).
    pose proof (byte_val_range b2). pose proof (byte_val_range b3).
    rewrite number_four_bytes.
    change (2 ^ 31) with 2147483648 in *. change (2 ^ 24) with 16777216.
    change (2 ^ 16) with 65536. change (2 ^ 8) with 256.
    rewrite int32_small by (change (2 ^ 31) with 2147483648; lia). lia.
Qed.

(** An instance of X3: the length field 0, 0, 0, 17 of the IDAT chunk of
    [Examples.gray2x2]. *)
Lemma number_big_endian_witness :
  number (bytes [0; 0; 0; 17]) = big_endian (bytes [0; 0; 0; 17])
  /\ 0 <= number (bytes [0; 0; 0; 17]).
Proof.
  apply (number_big_endian (bytes [0; 0; 0; 17])).
  - cbn. lia.
  - vm_compute. reflexivity.
Defined.

(** X4.  On five bytes the shift count of the first byte is 32, which
    [<<] takes modulo 32: the first byte is added unshifted to the value
    of the four bytes behind it.  [number] is a big-endian conversion for
    at most four bytes. *)
Theorem number_five_bytes (b0 b1 b2 b3 b4 : byte) :
  number [b0; b1; b2; b3; b4] = byte_val b0 + number [b1; b2; b3; b4].
Proof.
  rewrite (number_cons b0). f_equal.
  change (8 * array_length [b1; b2; b3; b4]) with 32.
  pose proof (byte_val_range b0).
  unfold shl. change (32 mod 32) with 0.
  rewrite Z.shiftl_0_r, (int32_small (byte_val b0)) by lia.
  apply int32_small. lia.
Qed.

(** ** decodePLTE on any chunk *)

(** A sequence cut into consecutive groups of three, the last group
    holding what is left. *)
Fixpoint groups3 {A : Type} (l : list A) : list (list A) :=
  match l with
  | [] => []
  | [a] => [[a]]
  | [a; b] => [[a; b]]
  | a :: b :: c :: rest => [a; b; c] :: groups3 rest
  end.

Lemma slice_from_prefix {A : Type} (pre suf : list A) (k : nat) :
  slice (pre ++ suf) (array_length pre) (array_length pre + Z.of_nat k)
  = firstn k suf.
Proof.
  unfold slice, array_length, relative_index. rewrite length_app.
  replace (Z.of_nat (List.length pre) <? 0) with false
    by (symmetry; apply Z.ltb_ge; lia).
  replace (Z.of_nat (List.length pre) + Z.of_nat k <? 0) with false
    by (symmetry; apply Z.ltb_ge; lia).
  rewrite (Z.min_l (Z.of_nat (List.length pre))) by lia.
  rewrite Nat2Z.id, skipn_app, skipn_all, Nat.sub_diag. cbn [skipn app].
  destruct (Nat.le_gt_cases k (List.length suf)) as [Hle | Hgt].
  - rewrite Z.min_l by lia. f_equal. lia.
  - rewrite Z.min_r by lia.
    replace (Z.to_nat (Z.of_nat (List.length pre + List.length suf)
                       - Z.of_nat (List.length pre)))
      with (List.length suf) by lia.
    rewrite firstn_all. symmetry. apply firstn_all2. lia.
Qed.

Lemma slice_to_end {A : Type} (l : list A) (a : Z) :
  0 <= a -> slice l a (array_length l) = skipn (Z.to_nat a) l.
Proof.
  intros Ha. unfold slice, array_length, relative_index.
  replace (a <? 0) with false by (symmetry; apply Z.ltb_ge; lia).
  replace (Z.of_nat (List.length l) <? 0) with false
    by (symmetry; apply Z.ltb_ge; lia).
  rewrite Z.min_id.
  destruct (Z.le_gt_cases a (Z.of_nat (List.length l))) as [Hle | Hgt].
  - rewrite Z.min_l by lia.
    apply firstn_all2. rewrite length_skipn. lia.
  - rewrite Z.min_r by lia. rewrite Nat2Z.id, skipn_all.
    rewrite skipn_all2 by lia. now rewrite firstn_nil.
Qed.

(** The loop of [decodePLTE] produces the groups of three of what lies
    from index [i] on. *)
Lemma decodePLTE_loop_groups (fuel : nat) :
  forall (pre suf : list byte) (decode : list (list byte)),
    (List.length suf <= fuel)%nat ->
    decodePLTE_loop fuel (pre ++ suf) (array_length pre) decode
    = decode ++ groups3 suf.
Proof.
  assert (Hstop : forall f (data : list byte) i decode,
             array_length data <= i -> decodePLTE_loop f data i decode = decode).
  { intros f data i decode Hi. destruct f as [ | f ]; [ reflexivity | ].
    cbn [decodePLTE_loop].
    replace (i <? array_length data) with false
      by (symmetry; apply Z.ltb_ge; lia).
    reflexivity. }
  induction fuel as [ | fuel IH ]; intros pre suf decode Hfuel.
  - destruct suf; [ | cbn [List.length] in Hfuel; lia ].
    cbn. now rewrite app_nil_r.
  - destruct suf as [ | a suf ].
    + rewrite Hstop by (rewrite app_nil_r; lia). cbn. now rewrite app_nil_r.
    + cbn [decodePLTE_loop].
      replace (array_length pre <? array_length (pre ++ a :: suf)) with true
        by (symmetry; apply Z.ltb_lt; unfold array_length;
            rewrite length_app; cbn [List.length]; lia).
      change 3 with (Z.of_nat 3). rewrite slice_from_prefix.
      destruct suf as [ | b [ | c rest ] ].
      * rewrite Hstop
          by (unfold array_length; rewrite length_app; cbn [List.length]; lia).
        reflexivity.
      * rewrite Hstop
          by (unfold array_length; rewrite length_app; cbn [List.length]; lia).
        reflexivity.
      * cbn [firstn groups3].
        replace (pre ++ a :: b :: c :: rest) with ((pre ++ [a; b; c]) ++ rest)
          by (now rewrite <- app_assoc).
        replace (array_length pre + Z.of_nat 3) with (array_length (pre ++ [a; b; c]))
          by (unfold array_length; rewrite length_app; cbn [List.length]; lia).
        rewrite IH by (cbn [List.length] in Hfuel; lia).
        now rewrite <- app_assoc.
Qed.

Lemma groups3_facts {A : Type} (n : nat) :
  forall l : list A,
    (List.length l <= n)%nat ->
    List.concat (groups3 l) = l
    /\ Forall (fun e => (1 <= List.length e <= 3)%nat) (groups3 l)
    /\ Z.of_nat (List.length (groups3 l)) = (Z.of_nat (List.length l) + 2) / 3.
Proof.
  induction n as [ | n IH ]; intros l Hn.
  - destruct l; [ | cbn [List.length] in Hn; lia ].
    cbn. repeat split. constructor.
  - destruct l as [ | a [ | b [ | c rest ] ] ].
    + cbn. repeat split. constructor.
    + cbn. repeat split. constructor; [ cbn; lia | constructor ].
    + cbn. repeat split. constructor; [ cbn; lia | constructor ].
    + destruct (IH rest) as (Hc & Hf & Hl); [ cbn [List.length] in Hn; lia | ].
      cbn [groups3 List.concat app List.length]. repeat split.
      * now rewrite Hc.
      * constructor; [ cbn; lia | exact Hf ].
      * rewrite Nat2Z.inj_succ, Hl.
        replace (Z.of_nat (S (S (S (List.length rest)))) + 2)
          with (Z.of_nat (List.length rest) + 2 + 1 * 3) by lia.
        rewrite Z.div_add by lia. lia.
Qed.

(** X5.  [decodePLTE] cuts everything that follows the first eight bytes
    of the chunk it is given, whatever length the chunk declares: when the
    two checks pass, the entries put end to end give back exactly those
    bytes, every entry holds between one and three bytes, and there are
    ceil(n/3) entries for n bytes. *)
Theorem decodePLTE_cuts_whole_chunk (chunk : list byte) :
  rem (number (slice chunk 0 4)) 3 = 0 ->
  expect_type chunk CHUNK_TYPE.PLTE "Expected PLTE header" = Ok tt ->
  exists entries,
    decodePLTE chunk = Ok entries
    /\ List.concat entries = skipn 8 chunk
    /\ Forall (fun e => (1 <= List.length e <= 3)%nat) entries
    /\ Z.of_nat (List.length entries)
       = (Z.of_nat (List.length (skipn 8 chunk)) + 2) / 3.
Proof.
  intros Hrem Htype. unfold decodePLTE. rewrite Hrem, Htype.
  cbn [bind Assert.equal Assert.value_ Assert.message Assert.assert strict_eq Z.eqb].
  rewrite slice_to_end by lia. change (Z.to_nat 8) with 8%nat.
  pose proof (decodePLTE_loop_groups (List.length (skipn 8 chunk)) []
                (skipn 8 chunk) [] (Nat.le_refl _)) as Hloop.
  cbn [app] in Hloop. change (array_length (@nil byte)) with 0 in Hloop.
  rewrite Hloop.
  destruct (groups3_facts (List.length (skipn 8 chunk)) (skipn 8 chunk)
              (Nat.le_refl _)) as (Hc & Hf & Hl).
  eexists. split; [ reflexivity | ]. repeat split; assumption.
Qed.

(** An instance of X5: [Examples.four_byte_PLTE] with its declared length
    changed to 3, so that four bytes follow a header announcing three. *)
Lemma decodePLTE_cuts_whole_chunk_witness :
  exists entries,
    decodePLTE (bytes [0; 0; 0; 3; 80; 76; 84; 69; 1; 2; 3; 4]) = Ok entries
    /\ List.concat entries = skipn 8 (bytes [0; 0; 0; 3; 80; 76; 84; 69; 1; 2; 3; 4])
    /\ Forall (fun e => (1 <= List.length e <= 3)%nat) entries
    /\ Z.of_nat (List.length entries)
       = (Z.of_nat (List.length
                      (skipn 8 (bytes [0; 0; 0; 3; 80; 76; 84; 69; 1; 2; 3; 4]))) + 2) / 3.
Proof.
  apply (decodePLTE_cuts_whole_chunk (bytes [0; 0; 0; 3; 80; 76; 84; 69; 1; 2; 3; 4]));
    reflexivity.
Defined.

(** ** A chunk that lies inside the buffer *)

Lemma byte_at_window (buffer : list byte) (x n k : Z) :
  0 <= x -> 0 <= k < n ->
  byte_at (firstn (Z.to_nat n) (skipn (Z.to_nat x) buffer)) k
  = byte_at buffer (x + k).
Proof.
  intros Hx Hk. unfold byte_at, index.
  replace (k <? 0) with false by (symmetry; apply Z.ltb_ge; lia).
  replace (x + k <? 0) with false by (symmetry; apply Z.ltb_ge; lia).
  rewrite nth_error_firstn.
  replace (Nat.ltb (Z.to_nat k) (Z.to_nat n)) with true
    by (symmetry; apply Nat.ltb_lt; lia).
  rewrite nth_error_skipn.
  replace (Z.to_nat x + Z.to_nat k)%nat with (Z.to_nat (x + k)) by lia.
  reflexivity.
Qed.

Lemma loose_strict_byte_at (l : list byte) (i c : Z) :
  strict_eq (byte_at l i) (VNumber c) = loose_eq_number (byte_at l i) c.
Proof. unfold byte_at. destruct (index l i); reflexivity. Qed.

(** The type assertions hold on a view of at least eight bytes taken
    where the scan found the type code. *)
Lemma expect_type_on_finding (buffer : list byte) (type : ChunkType)
    (m : string) (x n : Z) :
  0 <= x -> 8 <= n ->
  type_matches buffer type (x + 4) = true ->
  expect_type (firstn (Z.to_nat n) (skipn (Z.to_nat x) buffer)) type m = Ok tt.
Proof.
  intros Hx Hn Hm. unfold type_matches in Hm.
  rewrite !andb_true_iff in Hm. destruct Hm as [[[M0 M1] M2] M3].
  replace (x + 4 + 1) with (x + 5) in M1 by lia.
  replace (x + 4 + 2) with (x + 6) in M2 by lia.
  replace (x + 4 + 3) with (x + 7) in M3 by lia.
  unfold expect_type, Assert.equal.
  cbn [Assert.value_ Assert.message Assert.assert].
  rewrite !byte_at_window by lia.
  rewrite !loose_strict_byte_at, M0, M1, M2, M3. reflexivity.
Qed.

(** The view that [decode] builds on a chunk whose declared length is not
    negative and fits the buffer: its first four bytes are the length
    bytes, and what follows its first eight bytes is the payload. *)
Lemma chunk_view (buffer : list byte) (x : Z) :
  0 <= x ->
  0 <= declared_length buffer x ->
  x + 8 + declared_length buffer x <= array_length buffer ->
  let chunk := firstn (Z.to_nat (declared_length buffer x + 8))
                 (skipn (Z.to_nat x) buffer) in
  Uint8Array_view buffer x 4 = Ok (firstn 4 (skipn (Z.to_nat x) buffer))
  /\ Uint8Array_view buffer x (declared_length buffer x + 8) = Ok chunk
  /\ slice chunk 0 4 = firstn 4 (skipn (Z.to_nat x) buffer)
  /\ slice chunk 8 (declared_length buffer x + 8) = chunk_payload buffer x
  /\ skipn 8 chunk = chunk_payload buffer x
  /\ array_length (chunk_payload buffer x) = declared_length buffer x.
Proof.
  intros Hx HL Hfit chunk.
  assert (Hclen : array_length chunk = declared_length buffer x + 8).
  { unfold chunk, array_length in *. rewrite length_firstn, length_skipn. lia. }
  assert (Hskip : skipn 8 chunk = chunk_payload buffer x).
  { unfold chunk, chunk_payload.
    rewrite skipn_firstn_comm, skipn_skipn. f_equal; [ lia | f_equal; lia ]. }
  repeat split.
  - apply Uint8Array_view_fits; lia.
  - apply Uint8Array_view_fits; lia.
  - rewrite slice_window by lia. cbn [Z.sub Z.to_nat skipn Z.opp Z.add].
    change (Pos.to_nat 4) with 4%nat.
    unfold chunk. rewrite firstn_firstn, Nat.min_l by lia. reflexivity.
  - rewrite slice_window by lia. change (Z.to_nat 8) with 8%nat.
    rewrite Hskip. apply firstn_all2.
    rewrite <- Hskip, length_skipn. unfold array_length in Hclen. lia.
  - exact Hskip.
  - rewrite <- Hskip. unfold array_length in *. rewrite length_skipn. lia.
Qed.

(** ** The PLTE block of decode *)

Lemma filter_none {A : Type} (f : A -> bool) (l : list A) :
  (forall x, f x = false) -> List.filter f l = [].
Proof.
  intros H. induction l as [ | a l IH ]; cbn; [ reflexivity | ].
  now rewrite H.
Qed.

(** X6.  The PLTE block of [decode].  When the four bytes P, L, T, E do
    not occur anywhere in the buffer the block yields no palette.  When
    they occur exactly once, at a place where the declared length is a
    non-negative multiple of 3 and fits the buffer, the block yields the
    declared number of payload bytes cut into entries of three. *)
Theorem decode_PLTE_result (buffer : list byte) (p : Z) :
  ((forall i, type_matches buffer CHUNK_TYPE.PLTE i = false) ->
   decode_PLTE buffer = Ok None)
  /\ (getChunkIndex buffer CHUNK_TYPE.PLTE = Ok [p] ->
      0 <= declared_length buffer p ->
      rem (declared_length buffer p) 3 = 0 ->
      p + 8 + declared_length buffer p <= array_length buffer ->
      decode_PLTE buffer = Ok (Some (groups3 (chunk_payload buffer p)))
      /\ array_length (groups3 (chunk_payload buffer p))
         = declared_length buffer p / 3).
Proof.
  split.
  - intros Hnone. unfold decode_PLTE.
    rewrite getChunkIndex_unfolded.
    replace (existsb (type_matches buffer CHUNK_TYPE.PLTE) [0; 1; 2; 3]) with false
      by (cbn [existsb]; now rewrite !Hnone).
    rewrite filter_none by exact Hnone. reflexivity.
  - intros Hidx HL Hrem Hfit.
    destruct (getChunkIndex_member _ _ _ p Hidx (or_introl eq_refl))
      as (Hp & _ & Hm).
    destruct (chunk_view buffer p Hp HL Hfit)
      as (Hv4 & Hv & Hs4 & _ & Hskip & Hplen).
    split.
    + unfold decode_PLTE. rewrite Hidx. cbn [bind array_length List.length].
      change (1 <? Z.of_nat 1) with false. cbn iota.
      rewrite Hv4. cbn [bind].
      change (number (firstn 4 (skipn (Z.to_nat p) buffer)))
        with (declared_length buffer p).
      rewrite Hv. cbn [bind].
      unfold decodePLTE. rewrite Hs4.
      change (number (firstn 4 (skipn (Z.to_nat p) buffer)))
        with (declared_length buffer p).
      rewrite Hrem.
      rewrite expect_type_on_finding by (try assumption; lia).
      cbn [bind Assert.equal Assert.value_ Assert.message Assert.assert strict_eq Z.eqb].
      rewrite slice_to_end by lia. change (Z.to_nat 8) with 8%nat.
      rewrite Hskip.
      pose proof (decodePLTE_loop_groups (List.length (chunk_payload buffer p)) []
                    (chunk_payload buffer p) [] (Nat.le_refl _)) as Hloop.
      cbn [app] in Hloop. change (array_length (@nil byte)) with 0 in Hloop.
      now rewrite Hloop.
    + destruct (groups3_facts (List.length (chunk_payload buffer p))
                  (chunk_payload buffer p) (Nat.le_refl _)) as (_ & _ & Hl).
      unfold array_length in *. rewrite Hl, Hplen.
      unfold rem in Hrem. rewrite Z.rem_mod_nonneg in Hrem by lia.
      pose proof (Z.div_mod (declared_length buffer p) 3 ltac:(lia)) as Hd.
      replace (declared_length buffer p + 2)
        with (2 + declared_length buffer p / 3 * 3) by lia.
      rewrite Z.div_add by lia. change (2 / 3) with 0. lia.
Qed.

(** Instances of X6: [Examples.gray2x2], which holds no PLTE bytes, and
    [Examples.PLTE_after_IDAT], with its single PLTE chunk at offset 58. *)
Lemma decode_PLTE_result_witness :
  decode_PLTE Examples.gray2x2 = Ok None
  /\ decode_PLTE Examples.PLTE_after_IDAT
     = Ok (Some (groups3 (chunk_payload Examples.PLTE_after_IDAT 58)))
  /\ array_length (groups3 (chunk_payload Examples.PLTE_after_IDAT 58))
     = declared_length Examples.PLTE_after_IDAT 58 / 3.
Proof.
  split.
  - apply (proj1 (decode_PLTE_result Examples.gray2x2 0)).
    intros i.
    destruct (type_matches Examples.gray2x2 CHUNK_TYPE.PLTE i) eqn:E;
      [ exfalso | reflexivity ].
    pose proof (type_matches_in_bounds _ _ _ E) as [H0 Hb].
    assert (Hall : forallb (fun j => negb (type_matches Examples.gray2x2 CHUNK_TYPE.PLTE j))
                     (Zrange 0 (List.length Examples.gray2x2)) = true)
      by (vm_compute; reflexivity).
    rewrite forallb_forall in Hall. specialize (Hall i).
    rewrite E in Hall. cbn [negb] in Hall.
    assert (Hin : In i (Zrange 0 (List.length Examples.gray2x2)))
      by (apply in_Zrange; unfold array_length in Hb; lia).
    specialize (Hall Hin). discriminate Hall.
  - apply (proj2 (decode_PLTE_result Examples.PLTE_after_IDAT 58)).
    + vm_compute. reflexivity.
    + vm_compute. intros H. discriminate H.
    + vm_compute. reflexivity.
    + vm_compute. intros H. discriminate H.
Defined.

(** ** The IDAT block of decode on chunks that fit the buffer *)

(** What [decodeIDAT] makes of the answer of the backend. *)
Definition inflate_outcome (r : inflated) : result (list byte) :=
  match r with
  | Inflated raw => Ok raw
  | ReturnsUndefined => Throw (Thrown "Could not inflate IDAT payload")
  | InflateThrows => Throw InflateError
  end.

Definition inflated_bytes (r : inflated) : list byte :=
  match r with
  | Inflated raw => raw
  | _ => []
  end.

Lemma IDAT_callback_run (inflate : list byte -> inflated)
    (buffer : list byte) (x : Z) (tr : trace) :
  0 <= x ->
  type_matches buffer CHUNK_TYPE.IDAT (x + 4) = true ->
  0 <= declared_length buffer x ->
  x + 8 + declared_length buffer x <= array_length buffer ->
  IDAT_callback inflate buffer x tr
  = (inflate_outcome (inflate (chunk_payload buffer x)),
     tr ++ [chunk_payload buffer x]).
Proof.
  intros Hx Hm HL Hfit.
  destruct (chunk_view buffer x Hx HL Hfit) as (Hv4 & Hv & Hs4 & Hpay & _ & _).
  unfold IDAT_callback, bindM, lift. rewrite Hv4.
  change (number (firstn 4 (skipn (Z.to_nat x) buffer)))
    with (declared_length buffer x).
  rewrite Hv. unfold decodeIDAT, bindM, lift.
  rewrite expect_type_on_finding by (try assumption; lia).
  rewrite Hs4.
  change (number (firstn 4 (skipn (Z.to_nat x) buffer)))
    with (declared_length buffer x).
  rewrite Hpay. unfold pako_inflate, inflate_outcome.
  destruct (inflate (chunk_payload buffer x)); reflexivity.
Qed.

Lemma IDAT_callback_RangeError (inflate : list byte -> inflated)
    (buffer : list byte) (x : Z) (tr : trace) :
  declared_length buffer x + 8 < 0
  \/ array_length buffer < x + declared_length buffer x + 8 ->
  IDAT_callback inflate buffer x tr = (Throw RangeError, tr).
Proof.
  intros Hout. unfold IDAT_callback, bindM, lift.
  destruct (Uint8Array_view buffer x 4) as [ lengthBytes | e ] eqn:V4.
  - apply Uint8Array_view_Ok in V4. destruct V4 as (Hx & _ & _ & Hbytes & _).
    change (Z.to_nat 4) with 4%nat in Hbytes.
    replace (number lengthBytes) with (declared_length buffer x)
      by (unfold declared_length; now rewrite Hbytes).
    unfold Uint8Array_view.
    destruct (x <? 0); [ reflexivity | ].
    destruct (declared_length buffer x + 8 <? 0) eqn:Hneg; [ reflexivity | ].
    apply Z.ltb_ge in Hneg.
    replace (array_length buffer <? x + (declared_length buffer x + 8)) with true
      by (symmetry; apply Z.ltb_lt; lia).
    reflexivity.
  - unfold Uint8Array_view in V4.
    destruct ((x <? 0) || (4 <? 0) || (array_length buffer <? x + 4));
      [ injection V4 as <-; reflexivity | discriminate V4 ].
Qed.

(** X7.  One run of the callback of the IDAT block on an index that the
    scan can report (non-negative, with the bytes I, D, A, T at its offset
    4), when the declared length is not negative and the chunk fits the
    buffer: the backend is called exactly once, on the declared number of
    bytes that follow the eight bytes of length and type, and the run
    yields the decompressed bytes, or `Could not inflate IDAT payload` when
    the backend returns nothing, or what the backend threw. *)
Theorem IDAT_callback_in_bounds (inflate : list byte -> inflated)
    (buffer : list byte) (x : Z) (tr : trace) :
  0 <= x ->
  type_matches buffer CHUNK_TYPE.IDAT (x + 4) = true ->
  0 <= declared_length buffer x ->
  x + 8 + declared_length buffer x <= array_length buffer ->
  IDAT_callback inflate buffer x tr
  = (inflate_outcome (inflate (chunk_payload buffer x)),
     tr ++ [chunk_payload buffer x]).
Proof. exact (IDAT_callback_run inflate buffer x tr). Qed.

(** An instance of X7: the IDAT chunk of [Examples.gray2x2]. *)
Lemma IDAT_callback_in_bounds_witness :
  IDAT_callback Examples.stored_inflate Examples.gray2x2 33 []
  = (inflate_outcome
       (Examples.stored_inflate (chunk_payload Examples.gray2x2 33)),
     [] ++ [chunk_payload Examples.gray2x2 33]).
Proof.
  apply (IDAT_callback_in_bounds Examples.stored_inflate Examples.gray2x2 33 []).
  - lia.
  - vm_compute. reflexivity.
  - vm_compute. intros H. discriminate H.
  - vm_compute. intros H. discriminate H.
Defined.

(** X8.  A chunk whose declared length runs past the end of the buffer,
    or is so negative that length plus 8 is negative, is refused with a
    RangeError when its view is built: the callback of the IDAT block
    stops there without calling the backend, and the PLTE block fails in
    the same way. *)
Theorem chunk_past_end_RangeError (inflate : list byte -> inflated)
    (buffer : list byte) (x : Z) (tr : trace) :
  declared_length buffer x + 8 < 0
  \/ array_length buffer < x + declared_length buffer x + 8 ->
  IDAT_callback inflate buffer x tr = (Throw RangeError, tr)
  /\ (getChunkIndex buffer CHUNK_TYPE.PLTE = Ok [x] ->
      decode_PLTE buffer = Throw RangeError).
Proof.
  intros Hout. split; [ now apply IDAT_callback_RangeError | ].
  intros Hidx.
  destruct (getChunkIndex_member _ _ _ x Hidx (or_introl eq_refl))
    as (Hx & Hb & _).
  unfold decode_PLTE. rewrite Hidx. cbn [bind array_length List.length].
  change (1 <? Z.of_nat 1) with false. cbn iota.
  rewrite Uint8Array_view_fits by lia. cbn [bind].
  change (number (firstn (Z.to_nat 4) (skipn (Z.to_nat x) buffer)))
    with (declared_length buffer x).
  unfold Uint8Array_view.
  replace (x <? 0) with false by (symmetry; apply Z.ltb_ge; lia).
  destruct (declared_length buffer x + 8 <? 0) eqn:Hneg; [ reflexivity | ].
  apply Z.ltb_ge in Hneg.
  replace (array_length buffer <? x + (declared_length buffer x + 8)) with true
    by (symmetry; apply Z.ltb_lt; lia).
  reflexivity.
Qed.

(** An instance of X8: offset 45 of [Examples.samples_PLTE], where the four
    bytes read as a length are 0, 250, 255, 0. *)
Lemma chunk_past_end_RangeError_witness :
  IDAT_callback Examples.stored_inflate Examples.samples_PLTE 45 []
  = (Throw RangeError, [])
  /\ decode_PLTE Examples.samples_PLTE = Throw RangeError.
Proof.
  destruct (chunk_past_end_RangeError Examples.stored_inflate
              Examples.samples_PLTE 45 []) as [Hidat Hplte].
  - right. vm_compute. reflexivity.
  - split; [ exact Hidat | ].
    apply Hplte. vm_compute. reflexivity.
Defined.

Lemma forEach_IDAT_run (inflate : list byte -> inflated) (buffer : list byte) :
  forall (dataIndices : list Z) (rawData : list (list byte)) (tr : trace),
    (forall x, In x dataIndices ->
       0 <= x
       /\ type_matches buffer CHUNK_TYPE.IDAT (x + 4) = true
       /\ 0 <= declared_length buffer x
       /\ x + 8 + declared_length buffer x <= array_length buffer
       /\ exists raw, inflate (chunk_payload buffer x) = Inflated raw) ->
    forEach_IDAT inflate buffer dataIndices rawData tr
    = (Ok (rawData
           ++ map (fun x => inflated_bytes (inflate (chunk_payload buffer x)))
                dataIndices),
       tr ++ map (chunk_payload buffer) dataIndices).
Proof.
  induction dataIndices as [ | x rest IH ]; intros rawData tr Hall.
  - cbn. now rewrite !app_nil_r.
  - destruct (Hall x (or_introl eq_refl)) as (Hx & Hm & HL & Hfit & raw & Hraw).
    cbn [forEach_IDAT]. unfold bindM.
    rewrite IDAT_callback_run by assumption.
    rewrite Hraw. cbn [inflate_outcome].
    rewrite IH by (intros y Hy; apply Hall; now right).
    cbn [map]. rewrite Hraw. cbn [inflated_bytes].
    now rewrite <- !app_assoc.
Qed.

(** X9.  The IDAT block of [decode] on a stream all of whose IDAT chunks
    fit the buffer and decompress: the backend is called once per chunk
    found, in order, on that chunk's payload, and the block returns the
    decompressed byte sequences, each written as comma-separated decimal
    numbers, joined by commas. *)
Theorem decode_IDAT_success (inflate : list byte -> inflated)
    (buffer : list byte) (dataIndices : list Z) (tr : trace) :
  getChunkIndex buffer CHUNK_TYPE.IDAT = Ok dataIndices ->
  dataIndices <> [] ->
  (forall x, In x dataIndices ->
     0 <= declared_length buffer x
     /\ x + 8 + declared_length buffer x <= array_length buffer
     /\ exists raw, inflate (chunk_payload buffer x) = Inflated raw) ->
  decode_IDAT inflate buffer tr
  = (Ok (join (map string_of_Uint8Array
                 (map (fun x => inflated_bytes (inflate (chunk_payload buffer x)))
                    dataIndices))),
     tr ++ map (chunk_payload buffer) dataIndices).
Proof.
  intros Hidx Hne Hall.
  unfold decode_IDAT, bindM, lift. rewrite Hidx.
  replace (array_length dataIndices =? 0) with false
    by (symmetry; apply Z.eqb_neq; destruct dataIndices;
        [ congruence | unfold array_length; cbn [List.length]; lia ]).
  rewrite forEach_IDAT_run.
  - reflexivity.
  - intros x Hx.
    destruct (getChunkIndex_member _ _ _ x Hidx Hx) as (H0 & _ & Hm).
    destruct (Hall x Hx) as (HL & Hfit & Hraw).
    repeat split; assumption.
Qed.

(** An instance of X9: [Examples.two_IDAT] with the stored-block backend. *)
Lemma decode_IDAT_success_witness :
  decode_IDAT Examples.stored_inflate Examples.two_IDAT []
  = (Ok (join (map string_of_Uint8Array
                 (map (fun x => inflated_bytes
                                  (Examples.stored_inflate
                                     (chunk_payload Examples.two_IDAT x)))
                    [33; 59]))),
     [] ++ map (chunk_payload Examples.two_IDAT) [33; 59]).
Proof.
  apply (decode_IDAT_success Examples.stored_inflate Examples.two_IDAT [33; 59] []).
  - vm_compute. reflexivity.
  - intros H. discriminate H.
  - intros x [<- | [<- | []]].
    + repeat split; try (vm_compute; intros H; discriminate H).
      eexists. vm_compute. reflexivity.
    + repeat split; try (vm_compute; intros H; discriminate H).
      eexists. vm_compute. reflexivity.
Defined.

(** ** decode as a whole *)

Lemma Uint8Array_view_firstn (buffer : list byte) (n : nat) (off len : Z) :
  off + len <= Z.of_nat n ->
  Uint8Array_view (firstn n buffer) off len = Uint8Array_view buffer off len.
Proof.
  intros Hn. unfold Uint8Array_view, array_length.
  destruct (off <? 0) eqn:Hoff; [ reflexivity | ].
  destruct (len <? 0) eqn:Hlen; [ reflexivity | ].
  apply Z.ltb_ge in Hoff, Hlen. cbn [orb].
  rewrite length_firstn.
  destruct (Z.of_nat (List.length buffer) <? off + len) eqn:Hfit.
  - apply Z.ltb_lt in Hfit.
    replace (Z.of_nat (Nat.min n (List.length buffer)) <? off + len) with true
      by (symmetry; apply Z.ltb_lt; lia).
    reflexivity.
  - apply Z.ltb_ge in Hfit.
    replace (Z.of_nat (Nat.min n (List.length buffer)) <? off + len) with false
      by (symmetry; apply Z.ltb_ge; lia).
    f_equal. rewrite skipn_firstn_comm, firstn_firstn. f_equal. lia.
Qed.

(** [decode] stops in one of its first four steps, with the trace as it
    found it. *)
Lemma decode_outcome (inflate : list byte -> inflated)
    (buffer : list byte) (tr : trace) :
  decode inflate buffer tr
  = (header <- Uint8Array_view buffer 0 8 ;;
     check_signature header ;;;
     chunk <- Uint8Array_view buffer 8 21 ;;
     _ <- decodeIHDR chunk ;;
     Throw (ReferenceError "colorType"),
     tr).
Proof.
  unfold decode, bindM, lift.
  destruct (Uint8Array_view buffer 0 8) as [ header | e ]; [ | reflexivity ].
  cbn [bind].
  destruct (check_signature header); [ | reflexivity ]. cbn [bind].
  destruct (Uint8Array_view buffer 8 21) as [ chunk | e ]; [ | reflexivity ].
  cbn [bind].
  destruct (decodeIHDR chunk) as [ h | e ] eqn:E; [ | reflexivity ].
  now apply decodeIHDR_never_returns in E.
Qed.

(** X10.  [decode] never calls the decompression backend, and what it
    throws is decided by the first 29 bytes of the buffer (the signature
    and the 21 bytes of the header view): the backend in use and every
    byte from offset 29 on are without influence. *)
Theorem decode_reads_29_bytes (inflate inflate' : list byte -> inflated)
    (buffer : list byte) (tr : trace) :
  snd (decode inflate buffer tr) = tr
  /\ decode inflate buffer tr = decode inflate' (firstn 29 buffer) tr.
Proof.
  rewrite !decode_outcome. split; [ reflexivity | ].
  now rewrite !(Uint8Array_view_firstn buffer 29) by lia.
Qed.

(** X11.  Buffers that are too short.  With fewer than 8 bytes, or with
    the PNG signature in front and fewer than 29 bytes in all, [decode]
    fails with the RangeError of the typed-array constructor. *)
Theorem decode_truncated_buffer (inflate : list byte -> inflated)
    (buffer : list byte) (tr : trace) :
  ((List.length buffer < 8)%nat
   \/ (firstn 8 buffer = PNG_signature /\ (List.length buffer < 29)%nat)) ->
  decode inflate buffer tr = (Throw RangeError, tr).
Proof.
  intros [Hshort | [Hsig Hlen]].
  - now apply decode_short_buffer.
  - rewrite decode_outcome. f_equal.
    assert (H8 : (8 <= List.length buffer)%nat).
    { rewrite <- (firstn_skipn 8 buffer), Hsig, length_app. cbn. lia. }
    rewrite Uint8Array_view_fits by (unfold array_length; lia).
    cbn [Z.to_nat skipn]. change (Pos.to_nat 8) with 8%nat.
    rewrite Hsig. cbn [bind].
    replace (check_signature PNG_signature) with (@Ok unit tt) by reflexivity.
    cbn [bind]. unfold Uint8Array_view, array_length.
    replace (Z.of_nat (List.length buffer) <? 8 + 21) with true
      by (symmetry; apply Z.ltb_lt; lia).
    reflexivity.
Qed.

(** Instances of X11: the empty buffer and the bare signature. *)
Lemma decode_truncated_buffer_witness :
  decode Examples.stored_inflate [] [] = (Throw RangeError, [])
  /\ decode Examples.stored_inflate PNG_signature [] = (Throw RangeError, []).
Proof.
  split.
  - apply (decode_truncated_buffer Examples.stored_inflate [] []).
    left. cbn. lia.
  - apply (decode_truncated_buffer Examples.stored_inflate PNG_signature []).
    right. split; [ reflexivity | cbn; lia ].
Defined.

(** ** The text kept in rawData *)

Lemma string_app_assoc (s1 s2 s3 : string) :
  ((s1 ++ s2) ++ s3 = s1 ++ (s2 ++ s3))%string.
Proof.
  induction s1 as [ | c s1 IH ]; cbn; [ reflexivity | now rewrite IH ].
Qed.

Lemma join_cons (p : string) (rest : list string) :
  rest <> [] -> join (p :: rest) = (p ++ "," ++ join rest)%string.
Proof. destruct rest; [ congruence | reflexivity ]. Qed.

Lemma join_app (l1 l2 : list string) :
  l1 <> [] -> l2 <> [] ->
  join (l1 ++ l2) = (join l1 ++ "," ++ join l2)%string.
Proof.
  intros H1 H2. induction l1 as [ | a [ | b l1 ] IH ]; [ congruence | | ].
  - cbn [app]. now rewrite join_cons.
  - change ((a :: b :: l1) ++ l2) with (a :: ((b :: l1) ++ l2)).
    rewrite join_cons by discriminate.
    rewrite IH by discriminate.
    rewrite (join_cons a (b :: l1)) by discriminate.
    now rewrite !string_app_assoc.
Qed.

(** X12.  [img.rawData] is a text.  When every decompressed piece is
    non-empty, joining the pieces gives the same text as writing out the
    bytes of all pieces put end to end, so the text does not show where one
    chunk ended and the next began; an empty piece shows as an empty field
    between two commas. *)
Theorem rawData_text (parts : list (list byte)) (a b : list byte) :
  (Forall (fun p => p <> []) parts ->
   join (map string_of_Uint8Array parts)
   = string_of_Uint8Array (List.concat parts))
  /\ join (map string_of_Uint8Array [a; []; b])
     = (string_of_Uint8Array a ++ "," ++ "," ++ string_of_Uint8Array b)%string.
Proof.
  split; [ | reflexivity ].
  induction parts as [ | p rest IH ]; intros Hall; [ reflexivity | ].
  inversion Hall as [ | ? ? Hp Hrest ]; subst.
  destruct rest as [ | q rest ].
  - cbn. now rewrite app_nil_r.
  - cbn [map]. rewrite join_cons by discriminate.
    change (string_of_Uint8Array q :: map string_of_Uint8Array rest)
      with (map string_of_Uint8Array (q :: rest)).
    rewrite (IH Hrest).
    cbn [List.concat]. unfold string_of_Uint8Array at 3.
    rewrite map_app, join_app; [ reflexivity | | ].
    + destruct p; [ congruence | discriminate ].
    + inversion Hrest; subst. destruct q; [ congruence | discriminate ].
Qed.

(** An instance of X12: the two scanlines decompressed from
    [Examples.two_IDAT]. *)
Lemma rawData_text_witness :
  join (map string_of_Uint8Array [bytes [0; 0; 255]; bytes [0; 128; 64]])
  = string_of_Uint8Array (List.concat [bytes [0; 0; 255]; bytes [0; 128; 64]]).
Proof.
  apply (proj1 (rawData_text [bytes [0; 0; 255]; bytes [0; 128; 64]] [] [])).
  repeat constructor; discriminate.
Defined.

(** ** A negative declared length *)

Lemma expect_IDAT_failure (chunk : list byte) :
  expect_type chunk CHUNK_TYPE.IDAT "Expected IDAT header" <> Ok tt ->
  expect_type chunk CHUNK_TYPE.IDAT "Expected IDAT header"
  = Throw (Thrown "Expected IDAT header").
Proof.
  unfold expect_type, Assert.equal.
  cbn [Assert.value_ Assert.message Assert.assert].
  destruct (strict_eq (byte_at chunk 4) _); [ | reflexivity ]. cbn [bind].
  destruct (strict_eq (byte_at chunk 5) _); [ | reflexivity ]. cbn [bind].
  destruct (strict_eq (byte_at chunk 6) _); [ | reflexivity ]. cbn [bind].
  destruct (strict_eq (byte_at chunk 7) _); [ | reflexivity ].
  intros H. now contradiction H.
Qed.

(** X13.  When the four length bytes in front of an IDAT type code read
    as a negative number from -8 to -1 (a first byte of 128 or more makes
    [number] negative), the view handed to [decodeIDAT] has fewer than
    eight bytes: the type assertion fails with `Expected IDAT header`,
    although the type code is there, and the backend is not called. *)
Theorem IDAT_callback_negative_length (inflate : list byte -> inflated)
    (buffer : list byte) (x : Z) (tr : trace) :
  0 <= x ->
  x + 8 <= array_length buffer ->
  -8 <= declared_length buffer x < 0 ->
  IDAT_callback inflate buffer x tr
  = (Throw (Thrown "Expected IDAT header"), tr).
Proof.
  intros Hx Hfit HL.
  unfold IDAT_callback, bindM, lift.
  rewrite Uint8Array_view_fits by lia.
  change (number (firstn (Z.to_nat 4) (skipn (Z.to_nat x) buffer)))
    with (declared_length buffer x).
  rewrite Uint8Array_view_fits by lia.
  unfold decodeIDAT, bindM, lift.
  rewrite expect_IDAT_failure; [ reflexivity | ].
  intros Hok. apply expect_type_length in Hok.
  unfold array_length in Hok. rewrite length_firstn in Hok. lia.
Qed.

(** An instance of X13: a stream whose IDAT chunk declares the length
    bytes 255, 255, 255, 255, which [number] reads as -1. *)
Lemma IDAT_callback_negative_length_witness :
  IDAT_callback Examples.stored_inflate
    (PNG_signature ++ bytes [255; 255; 255; 255; 73; 68; 65; 84; 0; 0; 0; 0]) 8 []
  = (Throw (Thrown "Expected IDAT header"), []).
Proof.
  apply (IDAT_callback_negative_length Examples.stored_inflate
           (PNG_signature ++ bytes [255; 255; 255; 255; 73; 68; 65; 84; 0; 0; 0; 0])
           8 []).
  - lia.
  - vm_compute. intros H. discriminate H.
  - split; vm_compute; [ intros H; discriminate H | reflexivity ].
Defined.

(** * The other copy of the decoder

    [src/unnamed/part_000] starts with another copy of the decoder.  It
    shares [number], [getChunkIndex] and the chunk-type table with
    [src/png.js]; its colour-type descriptors have no [channels] field,
    its [decodeIHDR] has no bit-depth assertion and returns the header,
    and its [decodePLTE] builds its entries by index arithmetic.  These
    two functions are embedded here; [Earlier.decodeColorType] is the
    same search over the copy's own table. *)
Module Earlier.

Record ColorType := {
  name : string;
  code : Z;
  allowed_bit_depths : list Z
}.

Module COLOR_TYPE.
Definition GRAYSCALE :=
  {| name := "Grayscale"; code := 0; allowed_bit_depths := [1; 2; 4; 8; 16] |}.
Definition RGB :=
  {| name := "RGB"; code := 2; allowed_bit_depths := [8; 16] |}.
Definition PALETTE :=
  {| name := "Palette"; code := 3; allowed_bit_depths := [1; 2; 4; 8] |}.
Definition ALPHA_GRAYSCALE :=
  {| name := "Grayscale with alpha channel"; code := 4;
     allowed_bit_depths := [8; 16] |}.
Definition ALPHA_RGB :=
  {| name := "Grayscale with alpha channel"; code := 6;
     allowed_bit_depths := [8; 16] |}.

Definition entries : list (string * ColorType) :=
  [ ("GRAYSCALE"%string, GRAYSCALE);
    ("RGB"%string, RGB);
    ("PALETTE"%string, PALETTE);
    ("ALPHA_GRAYSCALE"%string, ALPHA_GRAYSCALE);
    ("ALPHA_RGB"%string, ALPHA_RGB) ].
End COLOR_TYPE.

Module Header.
Record t := {
  width : Z;
  height : Z;
  depth : Z;
  colorType : ColorType;
  compression : Z;
  filter : Z;
  interlace : Z
}.
End Header.

(** decodeColorType (part_000 218-222). *)
Definition decodeColorType (c : Z) : result ColorType :=
  let type := find (fun kv => code (snd kv) =? c) COLOR_TYPE.entries in
  match type with
  | None => Throw (UnsupportedColorType c)
  | Some kv => Ok (snd kv)
  end.

(** decodeIHDR (part_000 113-144). *)
Definition decodeIHDR (chunk : list byte) : result Header.t :=
  let len := number (slice chunk 0 4) in
  Assert.equal (Assert.assert (VNumber len)) (VNumber 13) ;;;
  expect_type chunk CHUNK_TYPE.IHDR "Expected IHDR header" ;;;
  let width := number (slice chunk 8 12) in
  let height := number (slice chunk 12 16) in
  let depth := number (slice chunk 16 17) in
  let colorCode := number (slice chunk 17 18) in
  colorType <- decodeColorType colorCode ;;
  let compression := number (slice chunk 18 19) in
  let filter := number (slice chunk 19 20) in
  let interlace := number (slice chunk 20 21) in
  Ok {| Header.width := width; Header.height := height;
        Header.depth := depth; Header.colorType := colorType;
        Header.compression := compression; Header.filter := filter;
        Header.interlace := interlace |}.

(** The loop of decodePLTE (part_000 171-177):
    [for (let i = 0; i <= steps; i++)], pushing
    [[data[1*i], data[2*i], data[3*i]]]; an index outside [data] reads
    [undefined].  [fuel] bounds the iterations and is set to [steps + 1]. *)
Fixpoint decodePLTE_loop (fuel : nat) (data : list byte) (steps i : Z)
    (decode : list (list value)) : list (list value) :=
  match fuel with
  | O => decode
  | S fuel' =>
      if i <=? steps
      then decodePLTE_loop fuel' data steps (i + 1)
             (decode ++ [[byte_at data (1 * i); byte_at data (2 * i);
                          byte_at data (3 * i)]])
      else decode
  end.

(** decodePLTE (part_000 151-179); [Math.floor(length / 3)] is the
    floor division of [Z]. *)
Definition decodePLTE (chunk : list byte) : result (list (list value)) :=
  let len := number (slice chunk 0 4) in
  Assert.equal
    (Assert.message (Assert.assert (VNumber (rem len 3)))
       "Malformed PLTE chunk, the length is not divisble by 3") (VNumber 0) ;;;
  expect_type chunk CHUNK_TYPE.PLTE "Expected PLTE header" ;;;
  let steps := len / 3 in
  let data := slice chunk 8 (array_length chunk) in
  Ok (decodePLTE_loop (Z.to_nat (steps + 1)) data steps 0 []).

End Earlier.

(** ** Properties of the other copy *)

(** X14.  The [decodeIHDR] of the other copy decodes the fields of a
    21-byte header chunk in their order (width and height through
    [number] on four bytes each, then one byte each for bit depth, colour
    type, compression, filter and interlace) and returns them.  Only the
    declared length, the type code and the colour-type code are checked:
    every bit depth, compression, filter and interlace byte and every
    width and height is accepted. *)
Theorem earlier_decodeIHDR_header (w h : list byte) (d c cm f i : byte)
    (ct : Earlier.ColorType) :
  List.length w = 4%nat ->
  List.length h = 4%nat ->
  Earlier.decodeColorType (byte_val c) = Ok ct ->
  Earlier.decodeIHDR
    (bytes [0; 0; 0; 13] ++ bytes (chunk_code CHUNK_TYPE.IHDR)
     ++ w ++ h ++ [d; c; cm; f; i])
  = Ok {| Earlier.Header.width := number w;
          Earlier.Header.height := number h;
          Earlier.Header.depth := byte_val d;
          Earlier.Header.colorType := ct;
          Earlier.Header.compression := byte_val cm;
          Earlier.Header.filter := byte_val f;
          Earlier.Header.interlace := byte_val i |}.
Proof.
  intros Hw Hh Hct.
  destruct w as [ | w0 [ | w1 [ | w2 [ | w3 [ | ] ] ] ] ]; try discriminate Hw.
  destruct h as [ | h0 [ | h1 [ | h2 [ | h3 [ | ] ] ] ] ]; try discriminate Hh.
  unfold Earlier.decodeIHDR.
  set (chunk := bytes [0; 0; 0; 13] ++ bytes (chunk_code CHUNK_TYPE.IHDR)
                ++ [w0; w1; w2; w3] ++ [h0; h1; h2; h3] ++ [d; c; cm; f; i]).
  replace (slice chunk 0 4) with (bytes [0; 0; 0; 13]) by reflexivity.
  replace (number (bytes [0; 0; 0; 13])) with 13 by reflexivity.
  replace (expect_type chunk CHUNK_TYPE.IHDR "Expected IHDR header")
    with (@Ok unit tt) by reflexivity.
  replace (slice chunk 8 12) with [w0; w1; w2; w3] by reflexivity.
  replace (slice chunk 12 16) with [h0; h1; h2; h3] by reflexivity.
  replace (slice chunk 16 17) with [d] by reflexivity.
  replace (slice chunk 17 18) with [c] by reflexivity.
  replace (slice chunk 18 19) with [cm] by reflexivity.
  replace (slice chunk 19 20) with [f] by reflexivity.
  replace (slice chunk 20 21) with [i] by reflexivity.
  rewrite !number_one_byte, Hct. reflexivity.
Qed.

(** An instance of X14: an RGB header with bit depth 3, compression 9,
    filter 9, interlace 9 and width 0, all of which are accepted. *)
Lemma earlier_decodeIHDR_header_witness :
  Earlier.decodeIHDR
    (bytes [0; 0; 0; 13] ++ bytes (chunk_code CHUNK_TYPE.IHDR)
     ++ bytes [0; 0; 0; 0] ++ bytes [0; 0; 0; 2]
     ++ [u8 3; u8 2; u8 9; u8 9; u8 9])
  = Ok {| Earlier.Header.width := number (bytes [0; 0; 0; 0]);
          Earlier.Header.height := number (bytes [0; 0; 0; 2]);
          Earlier.Header.depth := byte_val (u8 3);
          Earlier.Header.colorType := Earlier.COLOR_TYPE.RGB;
          Earlier.Header.compression := byte_val (u8 9);
          Earlier.Header.filter := byte_val (u8 9);
          Earlier.Header.interlace := byte_val (u8 9) |}.
Proof.
  apply (earlier_decodeIHDR_header (bytes [0; 0; 0; 0]) (bytes [0; 0; 0; 2])
           (u8 3) (u8 2) (u8 9) (u8 9) (u8 9) Earlier.COLOR_TYPE.RGB);
    reflexivity.
Defined.

Lemma earlier_decodePLTE_loop_entries (fuel : nat) (data : list byte) (steps : Z) :
  forall (i : Z) (decode : list (list value)),
    i + Z.of_nat fuel = steps + 1 ->
    Earlier.decodePLTE_loop fuel data steps i decode
    = decode
      ++ map (fun j => [byte_at data (1 * j); byte_at data (2 * j);
                        byte_at data (3 * j)])
           (Zrange i fuel).
Proof.
  induction fuel as [ | fuel IH ]; intros i decode Hi.
  - cbn. now rewrite app_nil_r.
  - cbn [Earlier.decodePLTE_loop Zrange map].
    replace (i <=? steps) with true by (symmetry; apply Z.leb_le; lia).
    rewrite IH by lia. now rewrite <- app_assoc.
Qed.

(** X15.  The [decodePLTE] of the other copy, on a PLTE chunk whose
    payload has the declared length [3k]: it returns [k + 1] entries, one
    more than the payload holds, and entry [j] is made of the payload
    bytes at offsets [j], [2j] and [3j] (not [3j], [3j+1], [3j+2]); so
    entry 0 is the first byte three times, and the third component of
    the last entry is [undefined]. *)
Theorem earlier_decodePLTE_entries (lengthBytes payload : list byte) (k : nat) :
  List.length lengthBytes = 4%nat ->
  number lengthBytes = 3 * Z.of_nat k ->
  List.length payload = (3 * k)%nat ->
  Earlier.decodePLTE (lengthBytes ++ bytes (chunk_code CHUNK_TYPE.PLTE) ++ payload)
  = Ok (map (fun j => [byte_at payload (1 * j); byte_at payload (2 * j);
                       byte_at payload (3 * j)])
          (Zrange 0 (S k)))
  /\ byte_at payload (3 * Z.of_nat k) = VUndefined.
Proof.
  intros Hlen Hnum Hpay. split.
  - destruct lengthBytes as [ | l0 [ | l1 [ | l2 [ | l3 [ | ] ] ] ] ];
      try discriminate Hlen.
    unfold Earlier.decodePLTE.
    replace (slice ([l0; l1; l2; l3] ++ bytes (chunk_code CHUNK_TYPE.PLTE) ++ payload) 0 4)
      with [l0; l1; l2; l3]
      by (rewrite (slice_app_prefix [l0; l1; l2; l3]); [ reflexivity | lia | cbn; lia ]).
    rewrite Hnum.
    replace (rem (3 * Z.of_nat k) 3) with 0
      by (unfold rem; rewrite Z.mul_comm, Z.rem_mul; lia).
    replace (expect_type _ CHUNK_TYPE.PLTE "Expected PLTE header") with (@Ok unit tt)
      by reflexivity.
    cbn [bind Assert.equal Assert.value_ Assert.message Assert.assert strict_eq Z.eqb].
    rewrite app_assoc.
    change 8 with (array_length ([l0; l1; l2; l3] ++ bytes (chunk_code CHUNK_TYPE.PLTE))).
    rewrite slice_suffix.
    replace (3 * Z.of_nat k / 3) with (Z.of_nat k)
      by (rewrite Z.mul_comm, Z.div_mul; lia).
    replace (Z.to_nat (Z.of_nat k + 1)) with (S k) by lia.
    rewrite earlier_decodePLTE_loop_entries by lia. reflexivity.
  - unfold byte_at, index.
    replace (3 * Z.of_nat k <? 0) with false by (symmetry; apply Z.ltb_ge; lia).
    replace (nth_error payload (Z.to_nat (3 * Z.of_nat k))) with (@None byte);
      [ reflexivity | ].
    symmetry. apply nth_error_None. lia.
Qed.

(** An instance of X15: a palette of two entries, 1,2,3 and 4,5,6, for
    which the copy returns the three entries [1,1,1], [2,3,4] and
    [3,5,undefined]. *)
Lemma earlier_decodePLTE_entries_witness :
  Earlier.decodePLTE
    (bytes [0; 0; 0; 6] ++ bytes (chunk_code CHUNK_TYPE.PLTE)
     ++ bytes [1; 2; 3; 4; 5; 6])
  = Ok (map (fun j => [byte_at (bytes [1; 2; 3; 4; 5; 6]) (1 * j);
                       byte_at (bytes [1; 2; 3; 4; 5; 6]) (2 * j);
                       byte_at (bytes [1; 2; 3; 4; 5; 6]) (3 * j)])
          (Zrange 0 3))
  /\ byte_at (bytes [1; 2; 3; 4; 5; 6]) (3 * Z.of_nat 2) = VUndefined.
Proof.
  apply (earlier_decodePLTE_entries (bytes [0; 0; 0; 6])
           (bytes [1; 2; 3; 4; 5; 6]) 2); reflexivity.
Defined.

(** * decodeIHDR, guard by guard *)

(** A header chunk that declares the length 12. *)
Definition length12_header : list byte :=
  bytes [0; 0; 0; 12; 73; 72; 68; 82; 0; 0; 0; 2; 0; 0; 0; 2; 8; 0; 0; 0; 0].

(** The four ways [decodeIHDR] ends, in the order of its statements. *)
Lemma decodeIHDR_cases (chunk : list byte) :
  (number (slice chunk 0 4) <> 13 ->
   decodeIHDR chunk
   = Throw (ExpectedToBe (VNumber (number (slice chunk 0 4))) (VNumber 13)))
  /\ (number (slice chunk 0 4) = 13 ->
      expect_type chunk CHUNK_TYPE.IHDR "Expected IHDR header" <> Ok tt ->
      decodeIHDR chunk = Throw (Thrown "Expected IHDR header"))
  /\ (forall e,
        number (slice chunk 0 4) = 13 ->
        expect_type chunk CHUNK_TYPE.IHDR "Expected IHDR header" = Ok tt ->
        decodeColorType (number (slice chunk 17 18)) = Throw e ->
        decodeIHDR chunk = Throw e)
  /\ (forall ct,
        number (slice chunk 0 4) = 13 ->
        expect_type chunk CHUNK_TYPE.IHDR "Expected IHDR header" = Ok tt ->
        decodeColorType (number (slice chunk 17 18)) = Ok ct ->
        decodeIHDR chunk = Throw (ReferenceError "colorType")).
Proof.
  rewrite decodeIHDR_guards. repeat split.
  - intros Hlen. unfold Assert.equal.
    cbn [Assert.value_ Assert.assert Assert.failure Assert.msg strict_eq].
    apply Z.eqb_neq in Hlen. now rewrite Hlen.
  - intros Hlen Htype. rewrite Hlen, (expect_IHDR_failure chunk Htype). reflexivity.
  - intros e Hlen Htype He. now rewrite Hlen, Htype, He.
  - intros ct Hlen Htype Hct. now rewrite Hlen, Htype, Hct.
Qed.

(** C4, as the program has it.  [decodeIHDR] has three guards before the
    bit-depth assertion, and a chunk that fails one of them throws that
    guard's failure: `Expected <n> to be 13` for a declared length other
    than 13, `Expected IHDR header` for another type code, and the failure
    of [decodeColorType] for a colour code outside the table.  A chunk
    that passes the three guards makes [decodeIHDR] throw the
    ReferenceError of the unbound identifier [colorType], whatever its bit
    depth.  [decodeIHDR] returns a header for no chunk, and [decode]
    returns an image for no buffer. *)
Theorem decodeIHDR_ReferenceError (inflate : list byte -> inflated)
    (buffer chunk : list byte) (tr : trace) (ct : ColorType) (e : exn) :
  (number (slice chunk 0 4) <> 13 ->
   decodeIHDR chunk
   = Throw (ExpectedToBe (VNumber (number (slice chunk 0 4))) (VNumber 13)))
  /\ (number (slice chunk 0 4) = 13 ->
      expect_type chunk CHUNK_TYPE.IHDR "Expected IHDR header" <> Ok tt ->
      decodeIHDR chunk = Throw (Thrown "Expected IHDR header"))
  /\ (number (slice chunk 0 4) = 13 ->
      expect_type chunk CHUNK_TYPE.IHDR "Expected IHDR header" = Ok tt ->
      decodeColorType (number (slice chunk 17 18)) = Throw e ->
      decodeIHDR chunk = Throw e)
  /\ (number (slice chunk 0 4) = 13 ->
      expect_type chunk CHUNK_TYPE.IHDR "Expected IHDR header" = Ok tt ->
      decodeColorType (number (slice chunk 17 18)) = Ok ct ->
      decodeIHDR chunk = Throw (ReferenceError "colorType"))
  /\ (forall h, decodeIHDR chunk <> Ok h)
  /\ (forall img tr', decode inflate buffer tr <> (Ok img, tr')).
Proof.
  destruct (decodeIHDR_cases chunk) as (Hlen & Htype & Hcolour & Hmsg).
  repeat split.
  - exact Hlen.
  - exact Htype.
  - apply Hcolour.
  - apply Hmsg.
  - intros h. apply decodeIHDR_never_returns.
  - intros img tr'. apply decode_never_returns.
Qed.

(** Instances of C4: a header declaring the length 12, the 13-byte IDAT
    chunk in front of [Examples.IDAT_first], the header of
    [Examples.colour1] with colour code 1, and the legal 8-bit Grayscale
    header of [Examples.gray2x2]. *)
Lemma decodeIHDR_ReferenceError_witness :
  decodeIHDR length12_header
  = Throw (ExpectedToBe (VNumber (number (slice length12_header 0 4))) (VNumber 13))
  /\ decodeIHDR (firstn 21 (skipn 8 Examples.IDAT_first))
     = Throw (Thrown "Expected IHDR header")
  /\ decodeIHDR (firstn 21 (skipn 8 Examples.colour1))
     = Throw (UnsupportedColorType 1)
  /\ decodeIHDR (firstn 21 (skipn 8 Examples.gray2x2))
     = Throw (ReferenceError "colorType").
Proof.
  split; [ | split; [ | split ] ].
  - apply (proj1 (decodeIHDR_ReferenceError Examples.stored_inflate []
                    length12_header [] COLOR_TYPE.GRAYSCALE RangeError)).
    vm_compute. intros H. discriminate H.
  - apply (proj1 (proj2 (decodeIHDR_ReferenceError Examples.stored_inflate []
                           (firstn 21 (skipn 8 Examples.IDAT_first)) []
                           COLOR_TYPE.GRAYSCALE RangeError))).
    + reflexivity.
    + vm_compute. intros H. discriminate H.
  - apply (proj1 (proj2 (proj2
             (decodeIHDR_ReferenceError Examples.stored_inflate []
                (firstn 21 (skipn 8 Examples.colour1)) []
                COLOR_TYPE.GRAYSCALE (UnsupportedColorType 1)))));
      reflexivity.
  - apply (proj1 (proj2 (proj2 (proj2
             (decodeIHDR_ReferenceError Examples.stored_inflate []
                (firstn 21 (skipn 8 Examples.gray2x2)) []
                COLOR_TYPE.GRAYSCALE RangeError)))));
      reflexivity.
Defined.

(** C5, as the program has it.  On a header chunk [decodeIHDR] checks the
    declared length (`Expected <n> to be 13`), then the type code
    (`Expected IHDR header`), then the colour-type code (the failure of
    [decodeColorType]); these checks read the first 18 bytes of the chunk
    only.  It has no check of the compression, filter or interlace byte:
    how a chunk fails is the same whatever follows its first 18 bytes. *)
Theorem decodeIHDR_ignores_compression_interlace
    (pre t1 t2 : list byte) (e e' : exn) :
  List.length pre = 18%nat ->
  (number (slice pre 0 4) <> 13 ->
   decodeIHDR (pre ++ t1)
   = Throw (ExpectedToBe (VNumber (number (slice pre 0 4))) (VNumber 13)))
  /\ (number (slice pre 0 4) = 13 ->
      expect_type pre CHUNK_TYPE.IHDR "Expected IHDR header" <> Ok tt ->
      decodeIHDR (pre ++ t1) = Throw (Thrown "Expected IHDR header"))
  /\ (number (slice pre 0 4) = 13 ->
      expect_type pre CHUNK_TYPE.IHDR "Expected IHDR header" = Ok tt ->
      decodeColorType (number (slice pre 17 18)) = Throw e' ->
      decodeIHDR (pre ++ t1) = Throw e')
  /\ (decodeIHDR (pre ++ t1) = Throw e -> decodeIHDR (pre ++ t2) = Throw e).
Proof.
  intros Hlen.
  assert (Hpre : forall t, decodeIHDR (pre ++ t) = decodeIHDR pre).
  { intros t. rewrite decodeIHDR_prefix by exact Hlen. now rewrite app_nil_r. }
  destruct (decodeIHDR_cases pre) as (Hl & Ht & Hc & _).
  rewrite !Hpre. repeat split.
  - exact Hl.
  - exact Ht.
  - apply Hc.
  - intros H. exact H.
Qed.

(** Instances of C5: the first 18 bytes of the four headers used for C4,
    each followed by the compression, filter and interlace bytes 1, 0, 7;
    the last one compares the bytes 0, 0, 0 with 1, 0, 7 after the header
    of [Examples.gray2x2]. *)
Lemma decodeIHDR_ignores_compression_interlace_witness :
  decodeIHDR (firstn 18 length12_header ++ bytes [1; 0; 7])
  = Throw (ExpectedToBe (VNumber (number (slice (firstn 18 length12_header) 0 4)))
             (VNumber 13))
  /\ decodeIHDR (firstn 18 (skipn 8 Examples.IDAT_first) ++ bytes [1; 0; 7])
     = Throw (Thrown "Expected IHDR header")
  /\ decodeIHDR (firstn 18 (skipn 8 Examples.colour1) ++ bytes [1; 0; 7])
     = Throw (UnsupportedColorType 1)
  /\ decodeIHDR (firstn 18 (skipn 8 Examples.gray2x2) ++ bytes [1; 0; 7])
     = Throw (ReferenceError "colorType").
Proof.
  split; [ | split; [ | split ] ].
  - apply (proj1 (decodeIHDR_ignores_compression_interlace
                    (firstn 18 length12_header) (bytes [1; 0; 7]) []
                    RangeError RangeError eq_refl)).
    vm_compute. intros H. discriminate H.
  - apply (proj1 (proj2 (decodeIHDR_ignores_compression_interlace
                           (firstn 18 (skipn 8 Examples.IDAT_first))
                           (bytes [1; 0; 7]) [] RangeError RangeError eq_refl))).
    + reflexivity.
    + vm_compute. intros H. discriminate H.
  - apply (proj1 (proj2 (proj2
             (decodeIHDR_ignores_compression_interlace
                (firstn 18 (skipn 8 Examples.colour1))
                (bytes [1; 0; 7]) [] RangeError (UnsupportedColorType 1) eq_refl))));
      reflexivity.
  - apply (proj2 (proj2 (proj2
             (decodeIHDR_ignores_compression_interlace
                (firstn 18 (skipn 8 Examples.gray2x2))
                (bytes [0; 0; 0]) (bytes [1; 0; 7])
                (ReferenceError "colorType") RangeError eq_refl)))).
    reflexivity.
Defined.

(** * The IDAT block, call by call *)

(** A chunk at [y] that the IDAT block can decompress: its declared
    length is not negative, it fits the buffer, and the backend gives
    bytes for its payload. *)
Definition chunk_decompresses (inflate : list byte -> inflated)
    (buffer : list byte) (y : Z) : Prop :=
  0 <= declared_length buffer y
  /\ y + 8 + declared_length buffer y <= array_length buffer
  /\ exists raw, inflate (chunk_payload buffer y) = Inflated raw.

(** [Examples.two_IDAT] with its second IDAT chunk replaced: by one whose
    three payload bytes are no zlib stream, by one that declares 100 bytes
    where three are left, and by one whose length bytes are 255, 255, 255,
    255. *)
Definition second_IDAT_garbage : list byte :=
  firstn 59 Examples.two_IDAT
  ++ bytes [0; 0; 0; 3; 73; 68; 65; 84; 1; 2; 3; 83; 55; 23; 173]
  ++ bytes Examples.IEND_chunk.

Definition second_IDAT_truncated : list byte :=
  firstn 59 Examples.two_IDAT
  ++ bytes [0; 0; 0; 100; 73; 68; 65; 84; 120; 1; 1].

Definition second_IDAT_negative : list byte :=
  firstn 59 Examples.two_IDAT
  ++ bytes [255; 255; 255; 255; 73; 68; 65; 84; 0; 0; 0; 0].

Lemma IDAT_callback_short_view (inflate : list byte -> inflated)
    (buffer : list byte) (x : Z) (tr : trace) :
  0 <= x ->
  x + 8 <= array_length buffer ->
  -8 <= declared_length buffer x < 0 ->
  IDAT_callback inflate buffer x tr
  = (Throw (Thrown "Expected IDAT header"), tr).
Proof.
  intros Hx Hfit HL.
  unfold IDAT_callback, bindM, lift.
  rewrite Uint8Array_view_fits by lia.
  change (number (firstn (Z.to_nat 4) (skipn (Z.to_nat x) buffer)))
    with (declared_length buffer x).
  rewrite Uint8Array_view_fits by lia.
  unfold decodeIDAT, bindM, lift.
  rewrite expect_IDAT_failure; [ reflexivity | ].
  intros Hok. apply expect_type_length in Hok.
  unfold array_length in Hok. rewrite length_firstn in Hok. lia.
Qed.

Lemma forEach_IDAT_app (inflate : list byte -> inflated) (buffer : list byte)
    (l1 l2 : list Z) :
  forall (rawData : list (list byte)) (tr : trace),
    forEach_IDAT inflate buffer (l1 ++ l2) rawData tr
    = match forEach_IDAT inflate buffer l1 rawData tr with
      | (Ok rawData', tr') => forEach_IDAT inflate buffer l2 rawData' tr'
      | (Throw e, tr') => (Throw e, tr')
      end.
Proof.
  induction l1 as [ | x l1 IH ]; intros rawData tr; [ reflexivity | ].
  cbn [app forEach_IDAT]. unfold bindM.
  destruct (IDAT_callback inflate buffer x tr) as [ [ raw | e ] tr1 ];
    [ apply IH | reflexivity ].
Qed.

(** The block fails with the failure of the first run of the callback
    that fails, after the calls made for the chunks before it. *)
Lemma decode_IDAT_first_failure (inflate : list byte -> inflated)
    (buffer : list byte) (pre post : list Z) (x : Z) (tr tr' : trace) (e : exn) :
  getChunkIndex buffer CHUNK_TYPE.IDAT = Ok (pre ++ x :: post) ->
  (forall y, In y pre -> chunk_decompresses inflate buffer y) ->
  IDAT_callback inflate buffer x (tr ++ map (chunk_payload buffer) pre)
  = (Throw e, tr') ->
  decode_IDAT inflate buffer tr = (Throw e, tr').
Proof.
  intros Hidx Hpre Hx.
  unfold decode_IDAT, bindM, lift. rewrite Hidx.
  replace (array_length (pre ++ x :: post) =? 0) with false
    by (symmetry; apply Z.eqb_neq; unfold array_length;
        rewrite length_app; cbn [List.length]; lia).
  rewrite forEach_IDAT_app, forEach_IDAT_run.
  - cbn [forEach_IDAT]. unfold bindM. now rewrite Hx.
  - intros y Hy.
    destruct (getChunkIndex_member _ _ _ y Hidx) as (H0 & _ & Hm);
      [ apply in_or_app; now left | ].
    destruct (Hpre y Hy) as (HL & Hfit & Hraw).
    repeat split; assumption.
Qed.

(** C3, as the program has it.  The IDAT block calls the backend once
    per IDAT type code found, in the order found, each time on the payload
    of that one chunk.  When every chunk can be decompressed the block
    makes one call per chunk and returns the decompressed results, each
    written as comma-separated numbers, joined by commas.  Otherwise it
    stops at the first chunk that cannot be: with a RangeError and no call
    for it when its declared length leaves the buffer, with `Expected IDAT
    header` and no call when that length is -8 to -1, and after the call on
    its payload with `Could not inflate IDAT payload` or the exception of
    the backend when the backend gives no bytes.  The compressed payloads
    are never put together. *)
Theorem decode_IDAT_inflates_each_chunk (inflate : list byte -> inflated)
    (buffer : list byte) (dataIndices pre post : list Z) (x : Z) (tr : trace) :
  getChunkIndex buffer CHUNK_TYPE.IDAT = Ok dataIndices ->
  (exists n : nat,
     (n <= List.length dataIndices)%nat
     /\ snd (decode_IDAT inflate buffer tr)
        = tr ++ map (chunk_payload buffer) (firstn n dataIndices)
     /\ (forall raw, fst (decode_IDAT inflate buffer tr) = Ok raw ->
         n = List.length dataIndices /\ (0 < n)%nat))
  /\ (dataIndices <> [] ->
      (forall y, In y dataIndices -> chunk_decompresses inflate buffer y) ->
      decode_IDAT inflate buffer tr
      = (Ok (join (map string_of_Uint8Array
                     (map (fun y => inflated_bytes (inflate (chunk_payload buffer y)))
                        dataIndices))),
         tr ++ map (chunk_payload buffer) dataIndices))
  /\ (dataIndices = pre ++ x :: post ->
      (forall y, In y pre -> chunk_decompresses inflate buffer y) ->
      (declared_length buffer x + 8 < 0
       \/ array_length buffer < x + declared_length buffer x + 8 ->
       decode_IDAT inflate buffer tr
       = (Throw RangeError, tr ++ map (chunk_payload buffer) pre))
      /\ (-8 <= declared_length buffer x < 0 ->
          decode_IDAT inflate buffer tr
          = (Throw (Thrown "Expected IDAT header"),
             tr ++ map (chunk_payload buffer) pre))
      /\ (0 <= declared_length buffer x ->
          x + 8 + declared_length buffer x <= array_length buffer ->
          inflate (chunk_payload buffer x) = ReturnsUndefined ->
          decode_IDAT inflate buffer tr
          = (Throw (Thrown "Could not inflate IDAT payload"),
             (tr ++ map (chunk_payload buffer) pre) ++ [chunk_payload buffer x]))
      /\ (0 <= declared_length buffer x ->
          x + 8 + declared_length buffer x <= array_length buffer ->
          inflate (chunk_payload buffer x) = InflateThrows ->
          decode_IDAT inflate buffer tr
          = (Throw InflateError,
             (tr ++ map (chunk_payload buffer) pre) ++ [chunk_payload buffer x]))).
Proof.
  intros Hidx. split; [ | split ].
  - unfold decode_IDAT, bindM, lift. rewrite Hidx.
    destruct (array_length dataIndices =? 0) eqn:Hlen.
    + exists 0%nat. cbn. rewrite app_nil_r.
      split; [ lia | ]. split; [ reflexivity | discriminate ].
    + apply Z.eqb_neq in Hlen.
      destruct (forEach_IDAT_trace inflate buffer dataIndices [] tr)
        as (n & Hn & Htr & Hok).
      exists n.
      destruct (forEach_IDAT inflate buffer dataIndices [] tr) as [ [ out | e ] tr1 ];
        cbn [fst snd] in *.
      * specialize (Hok out eq_refl).
        split; [ exact Hn | ]. split; [ exact Htr | ].
        intros raw _. split; [ exact Hok | unfold array_length in Hlen; lia ].
      * split; [ exact Hn | ]. split; [ exact Htr | discriminate ].
  - intros Hne Hall.
    unfold decode_IDAT, bindM, lift. rewrite Hidx.
    replace (array_length dataIndices =? 0) with false
      by (symmetry; apply Z.eqb_neq; destruct dataIndices;
          [ congruence | unfold array_length; cbn [List.length]; lia ]).
    rewrite forEach_IDAT_run; [ reflexivity | ].
    intros y Hy.
    destruct (getChunkIndex_member _ _ _ y Hidx Hy) as (H0 & _ & Hm).
    destruct (Hall y Hy) as (HL & Hfit & Hraw).
    split; [ exact H0 | ]. split; [ exact Hm | ]. split; [ exact HL | ].
    split; [ exact Hfit | exact Hraw ].
  - intros Hsplit Hpre. subst dataIndices.
    destruct (getChunkIndex_member _ _ _ x Hidx) as (H0 & Hb & Hm);
      [ apply in_or_app; right; now left | ].
    split; [ | split; [ | split ] ].
    + intros Hout.
      apply (decode_IDAT_first_failure inflate buffer pre post x tr _ _ Hidx Hpre).
      now apply IDAT_callback_RangeError.
    + intros HL.
      apply (decode_IDAT_first_failure inflate buffer pre post x tr _ _ Hidx Hpre).
      now apply IDAT_callback_short_view.
    + intros HL Hfit Hund.
      apply (decode_IDAT_first_failure inflate buffer pre post x tr _ _ Hidx Hpre).
      rewrite IDAT_callback_run by assumption. now rewrite Hund.
    + intros HL Hfit Hthrows.
      apply (decode_IDAT_first_failure inflate buffer pre post x tr _ _ Hidx Hpre).
      rewrite IDAT_callback_run by assumption. now rewrite Hthrows.
Qed.

(** Instances of C3: [Examples.two_IDAT], whose two chunks decompress;
    the three streams whose second chunk does not (declared length past
    the end, length bytes read as -1, payload that is no zlib stream); and
    [Examples.gray2x2] with a backend that returns nothing. *)
Lemma decode_IDAT_inflates_each_chunk_witness :
  decode_IDAT Examples.stored_inflate Examples.two_IDAT []
  = (Ok (join (map string_of_Uint8Array
                 (map (fun y => inflated_bytes
                                  (Examples.stored_inflate
                                     (chunk_payload Examples.two_IDAT y)))
                    [33; 59]))),
     [] ++ map (chunk_payload Examples.two_IDAT) [33; 59])
  /\ decode_IDAT Examples.stored_inflate second_IDAT_truncated []
     = (Throw RangeError, [] ++ map (chunk_payload second_IDAT_truncated) [33])
  /\ decode_IDAT Examples.stored_inflate second_IDAT_negative []
     = (Throw (Thrown "Expected IDAT header"),
        [] ++ map (chunk_payload second_IDAT_negative) [33])
  /\ decode_IDAT Examples.stored_inflate second_IDAT_garbage []
     = (Throw InflateError,
        ([] ++ map (chunk_payload second_IDAT_garbage) [33])
        ++ [chunk_payload second_IDAT_garbage 59])
  /\ decode_IDAT (fun _ => ReturnsUndefined) Examples.gray2x2 []
     = (Throw (Thrown "Could not inflate IDAT payload"),
        ([] ++ map (chunk_payload Examples.gray2x2) [])
        ++ [chunk_payload Examples.gray2x2 33]).
Proof.
  assert (Hfirst : forall buffer,
             firstn 59 buffer = firstn 59 Examples.two_IDAT ->
             (59 <= List.length buffer)%nat ->
             forall y, In y [33] ->
               chunk_decompresses Examples.stored_inflate buffer y).
  { intros buffer Hsame Hlen y [<- | []].
    assert (Hd : declared_length buffer 33 = 14).
    { unfold declared_length.
      change (Z.to_nat 33) with 33%nat.
      replace (firstn 4 (skipn 33 buffer)) with (firstn 4 (skipn 33 (firstn 59 buffer)))
        by (rewrite skipn_firstn_comm, firstn_firstn; reflexivity).
      rewrite Hsame. vm_compute. reflexivity. }
    assert (Hp : chunk_payload buffer 33 = Examples.first_IDAT_payload).
    { unfold chunk_payload. rewrite Hd.
      change (Z.to_nat (33 + 8)) with 41%nat. change (Z.to_nat 14) with 14%nat.
      replace (firstn 14 (skipn 41 buffer)) with (firstn 14 (skipn 41 (firstn 59 buffer)))
        by (rewrite skipn_firstn_comm, firstn_firstn; reflexivity).
      rewrite Hsame. vm_compute. reflexivity. }
    unfold chunk_decompresses. rewrite Hd, Hp.
    split; [ lia | ]. split; [ unfold array_length; lia | ].
    eexists. vm_compute. reflexivity. }
  split; [ | split; [ | split; [ | split ] ] ].
  - destruct (decode_IDAT_inflates_each_chunk Examples.stored_inflate
                Examples.two_IDAT [33; 59] [] [] 0 [])
      as (_ & Hall & _); [ vm_compute; reflexivity | ].
    apply Hall.
    + intros H. discriminate H.
    + intros y [<- | [<- | []]].
      * apply (Hfirst Examples.two_IDAT eq_refl); [ vm_compute; lia | now left ].
      * unfold chunk_decompresses.
        split; [ vm_compute; intros H; discriminate H | ].
        split; [ vm_compute; intros H; discriminate H | ].
        eexists. vm_compute. reflexivity.
  - destruct (decode_IDAT_inflates_each_chunk Examples.stored_inflate
                second_IDAT_truncated [33; 59] [33] [] 59 [])
      as (_ & _ & Hfail); [ vm_compute; reflexivity | ].
    destruct (Hfail eq_refl
                (Hfirst second_IDAT_truncated eq_refl ltac:(vm_compute; lia)))
      as (Hrange & _).
    apply Hrange. right. vm_compute. reflexivity.
  - destruct (decode_IDAT_inflates_each_chunk Examples.stored_inflate
                second_IDAT_negative [33; 59] [33] [] 59 [])
      as (_ & _ & Hfail); [ vm_compute; reflexivity | ].
    destruct (Hfail eq_refl
                (Hfirst second_IDAT_negative eq_refl ltac:(vm_compute; lia)))
      as (_ & Hneg & _).
    apply Hneg. split; vm_compute; [ intros H; discriminate H | reflexivity ].
  - destruct (decode_IDAT_inflates_each_chunk Examples.stored_inflate
                second_IDAT_garbage [33; 59] [33] [] 59 [])
      as (_ & _ & Hfail); [ vm_compute; reflexivity | ].
    destruct (Hfail eq_refl
                (Hfirst second_IDAT_garbage eq_refl ltac:(vm_compute; lia)))
      as (_ & _ & _ & Hthrows).
    apply Hthrows.
    + vm_compute. intros H. discriminate H.
    + vm_compute. intros H. discriminate H.
    + vm_compute. reflexivity.
  - destruct (decode_IDAT_inflates_each_chunk (fun _ => ReturnsUndefined)
                Examples.gray2x2 [33] [] [] 33 [])
      as (_ & _ & Hfail); [ vm_compute; reflexivity | ].
    destruct (Hfail eq_refl (fun y (H : In y []) => False_ind _ H))
      as (_ & _ & Hundef & _).
    apply Hundef.
    + vm_compute. intros H. discriminate H.
    + vm_compute. intros H. discriminate H.
    + reflexivity.
Defined.

(** * decodePLTE and declared lengths from 2^31 on *)

(** C9.  [decodePLTE] tests the declared length as [number] reads it, and
    [number] reads a length from [2^31] on as that length minus [2^32].
    The length bytes 128, 0, 0, 2 declare 2147483650 bytes, which is not
    a multiple of 3: [decodePLTE] does not refuse the chunk but cuts
    whatever payload follows into entries.  The length bytes 128, 0, 0, 1
    declare 2147483649 bytes, a multiple of 3: [decodePLTE] refuses the
    chunk with `Malformed PLTE chunk, the length is not divisble by 3`.
    The eight bytes 255, 255, 255, 253, P, L, T, E (declared length
    4294967293, not a multiple of 3) give the empty palette. *)
Theorem decodePLTE_length_read_signed (payload : list byte) :
  (big_endian (bytes [128; 0; 0; 2]) = 2147483650
   /\ 2147483650 mod 3 <> 0
   /\ decodePLTE (bytes [128; 0; 0; 2] ++ bytes (chunk_code CHUNK_TYPE.PLTE)
                  ++ payload)
      = Ok (groups3 payload))
  /\ (big_endian (bytes [128; 0; 0; 1]) = 2147483649
      /\ 2147483649 mod 3 = 0
      /\ decodePLTE (bytes [128; 0; 0; 1] ++ bytes (chunk_code CHUNK_TYPE.PLTE)
                     ++ payload)
         = Throw (Thrown "Malformed PLTE chunk, the length is not divisble by 3"))
  /\ (big_endian (bytes [255; 255; 255; 253]) = 4294967293
      /\ 4294967293 mod 3 <> 0
      /\ decodePLTE (bytes [255; 255; 255; 253; 80; 76; 84; 69]) = Ok []).
Proof.
  split; [ | split ].
  - split; [ reflexivity | ]. split; [ intros H; discriminate H | ].
    rewrite decodePLTE_well_formed by reflexivity.
    pose proof (decodePLTE_loop_groups (List.length payload) [] payload []
                  (Nat.le_refl _)) as Hloop.
    cbn [app] in Hloop. change (array_length (@nil byte)) with 0 in Hloop.
    now rewrite Hloop.
  - split; [ reflexivity | ]. split; [ reflexivity | ].
    apply decodePLTE_malformed.
    rewrite (slice_app_prefix (bytes [128; 0; 0; 1])) by (cbn; lia).
    vm_compute. intros H. discriminate H.
  - split; [ reflexivity | ]. split; [ intros H; discriminate H | ].
    vm_compute. reflexivity.
Qed.
